(** * flightaware.client, embedded in Rocq

    A shallow embedding of [flightaware/client.py]: the two timestamp
    converters, the request routine [_request] with its envelope unwrapping,
    and the per-method operations of [Client].

    Python values are a first-order universe [value]; exceptions are the
    [Raise] outcome of an error monad; the HTTP exchange is a state monad
    over the list of requests handed to [requests.post], with the remote
    service and the ambient platform as section variables.

    Modelling choices:
    - JSON documents are trees, so the in-place updates of
      [airline_flight_schedules] are functional updates of the records;
    - a datetime is its wall-clock reading in microseconds, which is what
      subtraction and [fromtimestamp] read and write;
    - [timedelta.total_seconds] is a float: the division is rounded to
      binary64 as Python rounds it, and [int] truncates the rounded value;
    - [logger.debug] has no effect on results and is left out. *)

From Stdlib Require Import ZArith List String Ascii Bool Lia.
From Stdlib Require Import DecimalString.
Import ListNotations.

Local Open Scope string_scope.
Local Open Scope Z_scope.
Set Warnings "-register-all".

(** ** Python data *)

(** A binary64 float, as the dyadic number [mant * 2 ^ expo].  Infinities
    and NaN are not represented: no computation below produces them. *)
Record float64 := F64 { mant : Z; expo : Z }.

(** [datetime.datetime].  The calendar reading is kept as [wall], the
    microseconds between 1970-01-01T00:00:00 and the reading on the same
    (proleptic Gregorian) wall clock; [tzinfo] is [None] for a naive value
    and the UTC offset in seconds for an aware one. *)
Record datetime := DateTime { wall : Z; tzinfo : option Z }.

(** [datetime.timedelta], in microseconds. *)
Definition timedelta := Z.

Inductive value :=
| VNone
| VBool (b : bool)
| VInt (n : Z)
| VFloat (f : float64)
| VStr (s : string)
| VList (l : list value)
| VDict (d : list (string * value))   (* insertion-ordered, string keys *)
| VDate (ordinal : Z)                 (* datetime.date *)
| VDateTime (d : datetime).

Inductive exn :=
| ValueError (msg : string)
| TypeError
| KeyError (key : string)
| NotImplementedError
| AttributeError
| RequestException        (* requests.post could not complete the exchange *)
| JSONDecodeError.        (* r.json() on a body that is not JSON *)

Inductive outcome (A : Type) :=
| Ok (a : A)
| Raise (e : exn).
Arguments Ok {A} a.
Arguments Raise {A} e.

Definition obind {A B} (c : outcome A) (k : A -> outcome B) : outcome B :=
  match c with
  | Ok a => k a
  | Raise e => Raise e
  end.

Notation "x <-? c ;; k" := (obind c (fun x => k))
  (at level 61, c at next level, right associativity).

(** ** Dictionaries: insertion-ordered association lists *)

Section Dict.
Context {V : Type}.

Fixpoint dict_get (k : string) (d : list (string * V)) : option V :=
  match d with
  | [] => None
  | (k', v) :: rest => if String.eqb k k' then Some v else dict_get k rest
  end.

Definition dict_mem (k : string) (d : list (string * V)) : bool :=
  match dict_get k d with Some _ => true | None => false end.

(** [d[k] = v]: an existing key keeps its position, a new one goes last. *)
Fixpoint dict_set (k : string) (v : V) (d : list (string * V)) : list (string * V) :=
  match d with
  | [] => [(k, v)]
  | (k', v') :: rest =>
      if String.eqb k k' then (k', v) :: rest else (k', v') :: dict_set k v rest
  end.
End Dict.

(** ** Truth value, [len] and [str] *)

Definition truthy (v : value) : bool :=
  match v with
  | VNone => false
  | VBool b => b
  | VInt n => negb (n =? 0)
  | VFloat f => negb (mant f =? 0)
  | VStr s => negb (String.eqb s "")
  | VList l => match l with [] => false | _ => true end
  | VDict d => match d with [] => false | _ => true end
  | VDate _ => true
  | VDateTime _ => true
  end.

Definition is_none (v : value) : bool :=
  match v with VNone => true | _ => false end.

Definition py_len (v : value) : outcome Z :=
  match v with
  | VStr s => Ok (Z.of_nat (String.length s))
  | VList l => Ok (Z.of_nat (List.length l))
  | VDict d => Ok (Z.of_nat (List.length d))
  | _ => Raise TypeError
  end.

Definition string_of_Z (n : Z) : string := NilZero.string_of_int (Z.to_int n).

(** ** Floats: correctly rounded division and truncation *)

Definition scale (x k : Z) : Z := x * 2 ^ Z.max 0 k.

(** [n / d] of two Python ints, [0 < d]: the binary64 value nearest to the
    exact quotient, ties to even.  The exponent is chosen so that the
    mantissa has 53 bits; the quotients met here are far from the overflow
    and subnormal ranges. *)
Definition true_divide (n d : Z) : float64 :=
  if n =? 0 then F64 0 0 else
  let a := Z.abs n in
  let l := Z.log2 a - Z.log2 d in
  let l' := if scale d l <=? scale a (- l) then l else l - 1 in
  let e := l' - 52 in
  let num := scale a (- e) in
  let den := scale d e in
  let q := num / den in
  let r := num mod den in
  let up := (den <? 2 * r) || ((den =? 2 * r) && Z.odd q) in
  F64 (Z.sgn n * (if up then q + 1 else q)) e.

(** [int(f)]: truncation toward zero. *)
Definition int_of_float (f : float64) : Z :=
  if 0 <=? expo f then mant f * 2 ^ expo f
  else Z.quot (mant f) (2 ^ (- expo f)).

(** The unsigned mantissa of [a / d] at exponent [- k]: the quotient
    [a * 2 ^ k / d] rounded to nearest, ties to even. *)
Definition rounded (a d k : Z) : Z :=
  let q := a * 2 ^ k / d in
  let r := (a * 2 ^ k) mod d in
  if (d <? 2 * r) || ((d =? 2 * r) && Z.odd q) then q + 1 else q.

(** ** Dates and times *)

Definition is_leap (y : Z) : bool :=
  (y mod 4 =? 0) && (negb (y mod 100 =? 0) || (y mod 400 =? 0)).

Definition days_before_year (year : Z) : Z :=
  let y := year - 1 in y * 365 + y / 4 - y / 100 + y / 400.

Definition days_before_month (y m : Z) : Z :=
  nth (Z.to_nat (m - 1)) [0; 31; 59; 90; 120; 151; 181; 212; 243; 273; 304; 334] 0
  + (if (2 <? m) && is_leap y then 1 else 0).

Definition ymd2ord (y m d : Z) : Z :=
  days_before_year y + days_before_month y m + d.

Definition wall_of (y mo d h mi s us : Z) : Z :=
  (((ymd2ord y mo d - ymd2ord 1970 1 1) * 86400 + h * 3600 + mi * 60 + s)
   * 1000000 + us).

(** [datetime.datetime(y, mo, d, h, mi, s, us)], naive. *)
Definition naive (y mo d h mi s us : Z) : datetime :=
  DateTime (wall_of y mo d h mi s us) None.

(** [datetime.datetime(y, mo, d, h, mi, s, us, tzinfo=...)] with a fixed
    offset of [off] seconds east of UTC. *)
Definition aware (y mo d h mi s us off : Z) : datetime :=
  DateTime (wall_of y mo d h mi s us) (Some off).

(** [datetime.min] and [datetime.max], as wall-clock seconds. *)
Definition MIN_SECONDS : Z := -62135596800.
Definition MAX_SECONDS : Z := 253402300799.

Definition datetime_in_range (d : datetime) : Prop :=
  MIN_SECONDS * 1000000 <= wall d <= MAX_SECONDS * 1000000 + 999999.

(** [a - b] on datetimes: both naive, or both aware. *)
Definition datetime_sub (a b : datetime) : outcome timedelta :=
  match tzinfo a, tzinfo b with
  | None, None => Ok (wall a - wall b)
  | Some oa, Some ob => Ok ((wall a - oa * 1000000) - (wall b - ob * 1000000))
  | _, _ => Raise TypeError
  end.

(** [timedelta.total_seconds()]. *)
Definition total_seconds (td : timedelta) : float64 := true_divide td 1000000.

(** ** Module constants *)

Definition BASE_URL : string := "http://flightxml.flightaware.com/json/FlightXML2/".
Definition MAX_RECORD_LENGTH : value := VInt 15.
Definition EPOCH : datetime := naive 1970 1 1 0 0 0 0.

(** ** [to_unix_timestamp] *)

Definition to_unix_timestamp (val : value) : outcome value :=
  if truthy val then
    match val with
    | VDateTime d =>
        td <-? datetime_sub d EPOCH ;;
        Ok (VInt (int_of_float (total_seconds td)))
    | _ => Raise (ValueError "input must be of type datetime")
    end
  else
    (* Just bypass *)
    Ok VNone.

(** [isinstance(val, datetime.datetime)] *)
Definition is_datetime (val : value) : bool :=
  match val with VDateTime _ => true | _ => false end.

(** ** Containers: [in], subscripting, iteration *)

Definition is_str (key : string) (v : value) : bool :=
  match v with VStr s => String.eqb s key | _ => false end.

(** [key in container], for a string [key]. *)
Definition py_in (key : string) (container : value) : outcome bool :=
  match container with
  | VDict d => Ok (dict_mem key d)
  | VList l => Ok (existsb (is_str key) l)
  | VStr s => Ok (match String.index 0 key s with Some _ => true | None => false end)
  | _ => Raise TypeError
  end.

(** [container[key]], for a string [key]. *)
Definition py_getitem (container : value) (key : string) : outcome value :=
  match container with
  | VDict d =>
      match dict_get key d with
      | Some v => Ok v
      | None => Raise (KeyError key)
      end
  | _ => Raise TypeError
  end.

(** [container[key] = v], for a string [key]; the updated container. *)
Definition py_setitem (container : value) (key : string) (v : value) : outcome value :=
  match container with
  | VDict d => Ok (VDict (dict_set key v d))
  | _ => Raise TypeError
  end.

Fixpoint chars (s : string) : list value :=
  match s with
  | EmptyString => []
  | String c rest => VStr (String c EmptyString) :: chars rest
  end.

(** The items a [for] loop visits. *)
Definition py_iter (v : value) : outcome (list value) :=
  match v with
  | VList l => Ok l
  | VDict d => Ok (map (fun kv => VStr (fst kv)) d)
  | VStr s => Ok (chars s)
  | _ => Raise TypeError
  end.

Fixpoint for_each (body : value -> outcome value) (items : list value)
  : outcome (list value) :=
  match items with
  | [] => Ok []
  | item :: rest =>
      item' <-? body item ;;
      rest' <-? for_each body rest ;;
      Ok (item' :: rest')
  end.

(** ** Paths *)

Fixpoint ends_with_sep (s : string) : bool :=
  match s with
  | EmptyString => false
  | String c EmptyString => Ascii.eqb c "/"
  | String _ rest => ends_with_sep rest
  end.

(** [os.path.join(a, b)] on a POSIX platform. *)
Definition os_path_join (a b : string) : string :=
  if String.prefix "/" b then b
  else if String.eqb a "" || ends_with_sep a then a ++ b
  else a ++ "/" ++ b.

(** ** The HTTP exchange *)

Record HTTPBasicAuth := { username : string; password : string }.

(** The keyword arguments of one [requests.post] call. *)
Record Request := {
  req_url : string;
  req_data : value;
  req_auth : HTTPBasicAuth;
  req_headers : list (string * string)
}.

(** What comes back: no response at all, or a body that [r.json()] decodes
    to a value ([Some]) or rejects ([None]). *)
Inductive reply :=
| NoReply
| Reply (json : option value).

(** A computation that may raise and that appends to the list of requests
    handed to [requests.post] so far. *)
Definition M (A : Type) : Type := list Request -> outcome A * list Request.

Definition ret {A} (a : A) : M A := fun log => (Ok a, log).

Definition raise {A} (e : exn) : M A := fun log => (Raise e, log).

Definition bind {A B} (c : M A) (k : A -> M B) : M B :=
  fun log =>
    match c log with
    | (Ok a, log') => k a log'
    | (Raise e, log') => (Raise e, log')
    end.

Definition lift {A} (c : outcome A) : M A := fun log => (c, log).

Notation "x <- c ;; k" := (bind c (fun x => k))
  (at level 61, c at next level, right associativity).

Module TrafficFilter.
Definition GA : value := VStr "ga".
Definition AIRLINE : value := VStr "airline".
Definition ALL : value := VNone.
End TrafficFilter.

Module AirlineInsightReportType.
Definition ALTERNATE_ROUTE_POPULARITY : value := VInt 1.
Definition PERCENTAGE_SCHEDULED_ACTUALLY_FLOWN : value := VInt 2.
Definition PASSENGER_LOAD_FACTOR_ACTUALLY_FLOWN : value := VInt 3.
Definition CARRIERS_BY_CARGO_WEIGHT : value := VInt 4.
End AirlineInsightReportType.

Record Client := { auth : HTTPBasicAuth; headers : list (string * string) }.

(** [Client.__init__] *)
Definition Client_init (username api_key : string) : Client :=
  {| auth := {| username := username; password := api_key |};
     headers := [("Content-Type", "application/x-www-form-urlencoded")] |}.

(** ** The client, over a remote service and an ambient platform *)

Section ClientModel.

(** The remote service as [requests.post] shows it. *)
Variable post : Request -> reply.

(** The platform's [localtime]: the reading of the local wall clock at an
    instant (both in seconds, the instant since the UNIX epoch and the
    reading since 1970-01-01T00:00:00 on that clock), or the exception
    raised for an instant the platform or the year range 1..9999
    rejects. *)
Variable localtime : Z -> outcome Z.

(** [datetime.fromtimestamp] on a float, and [str] on the values that are
    neither [None], a bool, an int nor a string: library behaviour that the
    client passes through. *)
Variable fromtimestamp_float : float64 -> outcome datetime.
Variable str_object : value -> string.

(** [str(v)] *)
Definition py_str (v : value) : string :=
  match v with
  | VNone => "None"
  | VBool true => "True"
  | VBool false => "False"
  | VInt n => string_of_Z n
  | VStr s => s
  | other => str_object other
  end.

(** [datetime.datetime.fromtimestamp(t)] for an int [t]: the naive reading
    of the local wall clock at instant [t]. *)
Definition fromtimestamp (t : Z) : outcome datetime :=
  w <-? localtime t ;;
  Ok (DateTime (w * 1000000) None).

Definition from_unix_timestamp (val : value) : outcome value :=
  match val with
  | VInt t => d <-? fromtimestamp t ;; Ok (VDateTime d)
  | VBool b => d <-? fromtimestamp (if b then 1 else 0) ;; Ok (VDateTime d)
  | VFloat f => d <-? fromtimestamp_float f ;; Ok (VDateTime d)
  | _ => Raise TypeError
  end.

(** [requests.post(url=..., data=..., auth=..., headers=...)] followed by
    [r.json()]. *)
Definition requests_post (req : Request) : M (option value) :=
  fun log =>
    match post req with
    | NoReply => (Raise RequestException, (log ++ [req])%list)
    | Reply body => (Ok body, (log ++ [req])%list)
    end.

Definition json (body : option value) : outcome value :=
  match body with
  | Some v => Ok v
  | None => Raise JSONDecodeError
  end.

Definition _request (self : Client) (method : string) (data : value) : M value :=
  let url := os_path_join BASE_URL method in
  r <- requests_post {| req_url := url; req_data := data;
                        req_auth := auth self; req_headers := headers self |} ;;
  result <- lift (json r) ;;
  let final := result in
  let key := method ++ "Result" in
  found <- lift (py_in key result) ;;
  if found : bool then
    final <- lift (py_getitem result key) ;;
    (* Test if final is a dict before iterating *)
    match final with
    | VDict d =>
        if dict_mem "data" d then lift (py_getitem final "data") else ret final
    | _ => ret final
    end
  else ret final.

Definition aircraft_type (self : Client) (aircraft_type : value) : M value :=
  _request self "AircraftType" (VDict [("type", aircraft_type)]).

Definition airline_flight_info (self : Client) (fa_flight_id : value) : M value :=
  _request self "AirlineFlightInfo" (VDict [("faFlightID", fa_flight_id)]).

(** One turn of the loop of [airline_flight_schedules]. *)
Definition add_times (item : value) : outcome value :=
  departuretime <-? py_getitem item "departuretime" ;;
  departure_time <-? from_unix_timestamp departuretime ;;
  item <-? py_setitem item "departure_time" departure_time ;;
  arrivaltime <-? py_getitem item "arrivaltime" ;;
  arrival_time <-? from_unix_timestamp arrivaltime ;;
  py_setitem item "arrival_time" arrival_time.

(** Defaults: [origin], [destination], [airline], [flight_number] are
    [None], [how_many] is [MAX_RECORD_LENGTH], [offset] is 0. *)
Definition airline_flight_schedules (self : Client)
    (start_date end_date origin destination airline flight_number
     how_many offset : value) : M value :=
  startDate <- lift (to_unix_timestamp start_date) ;;
  endDate <- lift (to_unix_timestamp end_date) ;;
  let data := VDict [
    ("startDate", startDate);
    ("endDate", endDate);
    ("origin", origin);
    ("destination", destination);
    ("airline", airline);
    ("flightno", flight_number);
    ("howMany", how_many);
    ("offset", offset)
  ] in
  results <- _request self "AirlineFlightSchedules" data ;;
  items <- lift (py_iter results) ;;
  items' <- lift (for_each add_times items) ;;
  ret (match results with VList _ => VList items' | _ => results end).

Definition airline_info (self : Client) (airline : value) : M value :=
  _request self "AirlineInfo" (VDict [("airlineCode", airline)]).

(** Default: [report_type] is [PERCENTAGE_SCHEDULED_ACTUALLY_FLOWN]. *)
Definition airline_insight (self : Client) (origin destination report_type : value)
  : M value :=
  _request self "AirlineInsight"
    (VDict [("origin", origin); ("destination", destination);
            ("reportType", report_type)]).

Definition airport_info (self : Client) (airport : value) : M value :=
  _request self "AirportInfo" (VDict [("airportCode", airport)]).

Definition all_airlines (self : Client) : M value :=
  _request self "AllAirlines" VNone.

Definition all_airports (self : Client) : M value :=
  _request self "AllAirports" VNone.

Definition block_indent_check (self : Client) (ident : value) : M value :=
  _request self "BlockIdentCheck" (VDict [("ident", ident)]).

Definition count_airport_operations (self : Client) (airport : value) : M value :=
  _request self "CountAirportOperations" (VDict [("airport", airport)]).

Definition count_all_enroute_airline_operations (self : Client) : M value :=
  _request self "CountAllEnrouteAirlineOperations" VNone.

Definition decode_flight_route (self : Client) (fa_flight_id : value) : M value :=
  _request self "DecodeFlightRoute" (VDict [("faFlightID", fa_flight_id)]).

Definition decode_route (self : Client) : M value :=
  raise NotImplementedError.

(** Defaults of the four airport boards: [how_many] is
    [MAX_RECORD_LENGTH], [filter] is [TrafficFilter.ALL], [offset] is 0. *)
Definition arrived (self : Client) (airport how_many filter offset : value) : M value :=
  _request self "Arrived"
    (VDict [("airport", airport); ("howMany", how_many); ("filter", filter);
            ("offset", offset)]).

Definition departed (self : Client) (airport how_many filter offset : value) : M value :=
  _request self "Departed"
    (VDict [("airport", airport); ("howMany", how_many); ("filter", filter);
            ("offset", offset)]).

Definition enroute (self : Client) (airport how_many filter offset : value) : M value :=
  _request self "Enroute"
    (VDict [("airport", airport); ("howMany", how_many); ("filter", filter);
            ("offset", offset)]).

Definition fleet_arrived (self : Client) : M value :=
  raise NotImplementedError.

Definition fleet_scheduled (self : Client) : M value :=
  raise NotImplementedError.

Definition flight_info (self : Client) (ident how_many : value) : M value :=
  raise NotImplementedError.

Definition flight_info_ex (self : Client) : M value :=
  raise NotImplementedError.

Definition get_flight_id (self : Client) (ident departure_datetime : value) : M value :=
  departureTime <- lift (to_unix_timestamp departure_datetime) ;;
  _request self "GetFlightID"
    (VDict [("ident", ident); ("departureTime", departureTime)]).

Definition get_historical_track (self : Client) : M value :=
  raise NotImplementedError.

Definition get_last_track (self : Client) (ident : value) : M value :=
  _request self "GetLastTrack" (VDict [("ident", ident)]).

Definition inbound_flight_info (self : Client) : M value :=
  raise NotImplementedError.

Definition in_flight_info (self : Client) (ident : value) : M value :=
  _request self "InFlightInfo" (VDict [("ident", ident)]).

Definition lat_lng_to_distance (self : Client) : M value :=
  raise NotImplementedError.

Definition lat_lng_to_heading (self : Client) : M value :=
  raise NotImplementedError.

Definition map_flight (self : Client) : M value :=
  raise NotImplementedError.

Definition map_flight_ex (self : Client) : M value :=
  raise NotImplementedError.

Definition metar (self : Client) (airport : value) : M value :=
  _request self "Metar" (VDict [("airport", airport)]).

Definition metar_ex (self : Client) (airport : value) : M value :=
  _request self "MetarEx" (VDict [("airport", airport)]).

Definition ntaf (self : Client) (airport : value) : M value :=
  _request self "NTaf" (VDict [("airport", airport)]).

Definition taf (self : Client) (airport : value) : M value :=
  _request self "NTaf" (VDict [("airport", airport)]).

Definition routes_between_airports (self : Client) (origin destination : value)
  : M value :=
  _request self "RoutesBetweenAirports"
    (VDict [("origin", origin); ("destination", destination)]).

Definition routes_between_airports_ex (self : Client) : M value :=
  raise NotImplementedError.

Definition scheduled (self : Client) (airport how_many filter offset : value) : M value :=
  _request self "Scheduled"
    (VDict [("airport", airport); ("howMany", how_many); ("filter", filter);
            ("offset", offset)]).

(** The loop of [search]: [query += "-%s %s " % (key, value)]. *)
Definition build_query (items : list (string * value)) : string :=
  fold_left (fun query kv => query ++ "-" ++ fst kv ++ " " ++ py_str (snd kv) ++ " ")
            items "".

(** Defaults: [parameters] is the empty dict, [how_many] is
    [MAX_RECORD_LENGTH], [offset] is 0. *)
Definition search (self : Client) (parameters how_many offset : value) : M value :=
  match parameters with
  | VDict items =>
      let query := build_query items in
      _request self "Search"
        (VDict [("query", VStr query); ("howMany", how_many); ("offset", offset)])
  | _ => raise AttributeError      (* no [items] method *)
  end.

Definition search_birdseye_in_flight (self : Client) : M value :=
  raise NotImplementedError.

Definition search_birdseye_positions (self : Client) : M value :=
  raise NotImplementedError.

Definition search_count (self : Client) : M value :=
  raise NotImplementedError.

Definition set_maximum_result_sizes (self : Client) : M value :=
  raise NotImplementedError.

Definition tail_owner (self : Client) (ident : value) : M value :=
  _request self "TailOwner" (VDict [("ident", ident)]).

Definition zipcode_info (self : Client) (zipcode : value) : M value :=
  _request self "ZipcodeInfo" (VDict [("zipcode", zipcode)]).

Definition get_alerts (self : Client) : M value :=
  _request self "GetAlerts" (VDict []).

(** Default: [alert_id] is [None]. *)
Definition delete_alert (self : Client) (alert_id : value) : M value :=
  if negb (is_none alert_id) then
    _request self "DeleteAlert" (VDict [("alert_id", alert_id)])
  else ret VNone.

(** [if v is not None: data[key] = v] *)
Definition set_unless_none (key : string) (v : value) (data : list (string * value))
  : list (string * value) :=
  if negb (is_none v) then dict_set key v data else data.

(** Defaults: [alert_id] is 0, the six filters are [None], [channels] is
    the empty list, [enabled] is [True], [max_weekly] is 1000. *)
Definition set_alert (self : Client)
    (alert_id ident origin destination aircrafttype date_start date_end
     channels enabled max_weekly : value) : M value :=
  let data := [("alert_id", alert_id); ("enabled", enabled);
               ("max_weekly", max_weekly)] in
  let data := set_unless_none "ident" ident data in
  let data := set_unless_none "origin" origin data in
  let data := set_unless_none "destination" destination data in
  let data := set_unless_none "aircrafttype" aircrafttype data in
  let data := set_unless_none "date_start" date_start data in
  let data := set_unless_none "date_end" date_end data in
  n <- lift (py_len channels) ;;
  let data := if 0 <? n then dict_set "channels" channels data else data in
  let data := set_unless_none "enabled" enabled data in
  _request self "SetAlert" (VDict data).

(** Default: [format_type] is ["json/post"]. *)
Definition register_alert_endpoint (self : Client) (address format_type : value)
  : M value :=
  _request self "RegisterAlertEndpoint"
    (VDict [("address", address); ("format_type", format_type)]).

End ClientModel.

(** ** The operations of the client, as one type *)

Inductive call :=
| Aircraft_type (aircraft_type : value)
| Airline_flight_info (fa_flight_id : value)
| Airline_flight_schedules
    (start_date end_date origin destination airline flight_number how_many offset : value)
| Airline_info (airline : value)
| Airline_insight (origin destination report_type : value)
| Airport_info (airport : value)
| All_airlines
| All_airports
| Block_indent_check (ident : value)
| Count_airport_operations (airport : value)
| Count_all_enroute_airline_operations
| Decode_flight_route (fa_flight_id : value)
| Decode_route
| Arrived (airport how_many filter offset : value)
| Departed (airport how_many filter offset : value)
| Enroute (airport how_many filter offset : value)
| Fleet_arrived
| Fleet_scheduled
| Flight_info (ident how_many : value)
| Flight_info_ex
| Get_flight_id (ident departure_datetime : value)
| Get_historical_track
| Get_last_track (ident : value)
| Inbound_flight_info
| In_flight_info (ident : value)
| Lat_lng_to_distance
| Lat_lng_to_heading
| Map_flight
| Map_flight_ex
| Metar (airport : value)
| Metar_ex (airport : value)
| Ntaf (airport : value)
| Taf (airport : value)
| Routes_between_airports (origin destination : value)
| Routes_between_airports_ex
| Scheduled (airport how_many filter offset : value)
| Search (parameters how_many offset : value)
| Search_birdseye_in_flight
| Search_birdseye_positions
| Search_count
| Set_maximum_result_sizes
| Tail_owner (ident : value)
| Zipcode_info (zipcode : value)
| Get_alerts
| Delete_alert (alert_id : value)
| Set_alert
    (alert_id ident origin destination aircrafttype date_start date_end
     channels enabled max_weekly : value)
| Register_alert_endpoint (address format_type : value).

Section Perform.
Variable post : Request -> reply.
Variable localtime : Z -> outcome Z.
Variable fromtimestamp_float : float64 -> outcome datetime.
Variable str_object : value -> string.

Definition perform (self : Client) (c : call) : M value :=
  match c with
  | Aircraft_type t => aircraft_type post self t
  | Airline_flight_info i => airline_flight_info post self i
  | Airline_flight_schedules sd ed o d a f h off =>
      airline_flight_schedules post localtime fromtimestamp_float self sd ed o d a f h off
  | Airline_info a => airline_info post self a
  | Airline_insight o d r => airline_insight post self o d r
  | Airport_info a => airport_info post self a
  | All_airlines => all_airlines post self
  | All_airports => all_airports post self
  | Block_indent_check i => block_indent_check post self i
  | Count_airport_operations a => count_airport_operations post self a
  | Count_all_enroute_airline_operations => count_all_enroute_airline_operations post self
  | Decode_flight_route i => decode_flight_route post self i
  | Decode_route => decode_route self
  | Arrived a h f o => arrived post self a h f o
  | Departed a h f o => departed post self a h f o
  | Enroute a h f o => enroute post self a h f o
  | Fleet_arrived => fleet_arrived self
  | Fleet_scheduled => fleet_scheduled self
  | Flight_info i h => flight_info self i h
  | Flight_info_ex => flight_info_ex self
  | Get_flight_id i d => get_flight_id post self i d
  | Get_historical_track => get_historical_track self
  | Get_last_track i => get_last_track post self i
  | Inbound_flight_info => inbound_flight_info self
  | In_flight_info i => in_flight_info post self i
  | Lat_lng_to_distance => lat_lng_to_distance self
  | Lat_lng_to_heading => lat_lng_to_heading self
  | Map_flight => map_flight self
  | Map_flight_ex => map_flight_ex self
  | Metar a => metar post self a
  | Metar_ex a => metar_ex post self a
  | Ntaf a => ntaf post self a
  | Taf a => taf post self a
  | Routes_between_airports o d => routes_between_airports post self o d
  | Routes_between_airports_ex => routes_between_airports_ex self
  | Scheduled a h f o => scheduled post self a h f o
  | Search p h o => search post str_object self p h o
  | Search_birdseye_in_flight => search_birdseye_in_flight self
  | Search_birdseye_positions => search_birdseye_positions self
  | Search_count => search_count self
  | Set_maximum_result_sizes => set_maximum_result_sizes self
  | Tail_owner i => tail_owner post self i
  | Zipcode_info z => zipcode_info post self z
  | Get_alerts => get_alerts post self
  | Delete_alert i => delete_alert post self i
  | Set_alert i id o d t ds de ch en mw => set_alert post self i id o d t ds de ch en mw
  | Register_alert_endpoint a f => register_alert_endpoint post self a f
  end.
End Perform.

(** The operations the client declares without implementing. *)
Definition unimplemented (c : call) : bool :=
  match c with
  | Decode_route | Fleet_arrived | Fleet_scheduled | Flight_info _ _
  | Flight_info_ex | Get_historical_track | Inbound_flight_info
  | Lat_lng_to_distance | Lat_lng_to_heading | Map_flight | Map_flight_ex
  | Routes_between_airports_ex | Search_birdseye_in_flight
  | Search_birdseye_positions | Search_count | Set_maximum_result_sizes => true
  | _ => false
  end.

(** The request that [_request self method data] hands to [requests.post]. *)
Definition request_of (self : Client) (method : string) (data : value) : Request :=
  {| req_url := os_path_join BASE_URL method; req_data := data;
     req_auth := auth self; req_headers := headers self |}.

(** ** The form encoding of a posted mapping *)








(** ** Concrete services and platforms, for the examples *)

(** A service that answers every request with the same JSON document. *)
Definition mock (document : value) : Request -> reply :=
  fun _ => Reply (Some document).

(** A platform in a zone at a fixed offset (seconds east of UTC).  As in
    CPython 3, [fromtimestamp] also reads the clock one day earlier, so the
    first day of year 1 is rejected with the rest below the range; the
    messages are those for a reading less than a year out of range. *)
Definition fixed_zone (off : Z) : Z -> outcome Z :=
  fun t =>
    let w := t + off in
    if w - 86400 <? MIN_SECONDS then Raise (ValueError "year 0 is out of range")
    else if MAX_SECONDS <? w then Raise (ValueError "year 10000 is out of range")
    else Ok w.

Definition no_float_timestamps : float64 -> outcome datetime :=
  fun _ => Raise TypeError.

Definition no_str_object : value -> string := fun _ => "".

Definition a_client : Client := Client_init "user" "key".

(** * Properties *)

(** ** The request routine *)

Lemma dict_mem_get {V} (k : string) (d : list (string * V)) :
  dict_mem k d = match dict_get k d with Some _ => true | None => false end.
Proof. reflexivity. Qed.

(** Every call of [_request] hands exactly one request to the transport,
    whatever comes back. *)
Lemma _request_log post self method data log :
  snd (_request post self method data log) = (log ++ [request_of self method data])%list.
Proof.
  unfold _request, bind, requests_post, lift, ret.
  fold (request_of self method data).
  destruct (post (request_of self method data)) as [|[result|]]; simpl; try reflexivity.
  destruct (py_in _ result) as [[|]|]; simpl; try reflexivity.
  destruct (py_getitem result _) as [final|]; simpl; try reflexivity.
  destruct final; simpl; try reflexivity.
  destruct (dict_mem "data" d); reflexivity.
Qed.

(** The result of [_request] when the body decodes to a JSON object. *)
Lemma _request_object post self method data log r :
  post (request_of self method data) = Reply (Some (VDict r)) ->
  _request post self method data log =
    (Ok match dict_get (method ++ "Result") r with
        | Some (VDict d) =>
            match dict_get "data" d with Some v => v | None => VDict d end
        | Some v => v
        | None => VDict r
        end,
     (log ++ [request_of self method data])%list).
Proof.
  intros Hpost.
  unfold _request, bind, requests_post, lift, ret.
  fold (request_of self method data). rewrite Hpost. simpl.
  rewrite dict_mem_get.
  destruct (dict_get (method ++ "Result") r) as [final|]; simpl; [|reflexivity].
  destruct final; simpl; try reflexivity.
  rewrite dict_mem_get.
  destruct (dict_get "data" d); reflexivity.
Qed.

(** C1: for every method and every JSON response object, [_request] returns
    the value at ["<method>Result"] when that key is present, replaced by
    the value at its ["data"] key when it is an object holding one, and the
    whole object when the key is absent; so [{"FooResult": {"data":
    [1,2,3]}}] gives [[1,2,3]], [{"FooResult": 42}] gives [42] and
    [{"unexpectedKey": "value"}] comes back unchanged. *)
Theorem request_unwraps_envelope :
  (forall post self method data log r,
      post (request_of self method data) = Reply (Some (VDict r)) ->
      fst (_request post self method data log) =
        Ok match dict_get (method ++ "Result") r with
           | Some (VDict d) =>
               match dict_get "data" d with Some v => v | None => VDict d end
           | Some v => v
           | None => VDict r
           end)
  /\ (forall self data log,
      fst (_request
             (mock (VDict [("FooResult",
                            VDict [("data", VList [VInt 1; VInt 2; VInt 3])])]))
             self "Foo" data log)
      = Ok (VList [VInt 1; VInt 2; VInt 3]))
  /\ (forall self data log,
      fst (_request (mock (VDict [("FooResult", VInt 42)])) self "Foo" data log)
      = Ok (VInt 42))
  /\ (forall self data log,
      fst (_request (mock (VDict [("unexpectedKey", VStr "value")])) self "Foo" data log)
      = Ok (VDict [("unexpectedKey", VStr "value")])).
Proof.
  split; [|split; [|split]].
  - intros post self method data log r Hpost.
    now rewrite (_request_object _ _ _ _ log _ Hpost).
  - intros. now rewrite (_request_object _ _ _ _ log _ eq_refl).
  - intros. now rewrite (_request_object _ _ _ _ log _ eq_refl).
  - intros. now rewrite (_request_object _ _ _ _ log _ eq_refl).
Qed.

Lemma request_unwraps_envelope_witness :
  fst (_request (mock (VDict [("BarResult", VDict [("data", VStr "x")])]))
         a_client "Bar" VNone [])
  = Ok (VStr "x").
Proof.
  exact (proj1 request_unwraps_envelope
           (mock (VDict [("BarResult", VDict [("data", VStr "x")])]))
           a_client "Bar" VNone [] _ eq_refl).
Defined.

(** C2, as the code has it: the ["data"] rule is applied only to what the
    ["<method>Result"] rule produced.  A response object without the key
    ["<method>Result"] is returned whole, whether or not it has a top-level
    ["data"] key; with the key present, an object value holding ["data"] is
    replaced by the value there. *)
Theorem data_rule_only_after_result_rule :
  forall post self method data log r,
    post (request_of self method data) = Reply (Some (VDict r)) ->
    (dict_get (method ++ "Result") r = None ->
     fst (_request post self method data log) = Ok (VDict r))
    /\ (forall d v,
           dict_get (method ++ "Result") r = Some (VDict d) ->
           dict_get "data" d = Some v ->
           fst (_request post self method data log) = Ok v).
Proof.
  intros post self method data log r Hpost.
  rewrite (_request_object _ _ _ _ log _ Hpost). simpl.
  split.
  - intros ->. reflexivity.
  - intros d v -> ->. reflexivity.
Qed.

Lemma data_rule_only_after_result_rule_witness :
  fst (_request (mock (VDict [("data", VInt 5)])) a_client "Foo" (VDict []) [])
  = Ok (VDict [("data", VInt 5)]).
Proof.
  exact (proj1 (data_rule_only_after_result_rule
                  (mock (VDict [("data", VInt 5)])) a_client "Foo" (VDict []) []
                  [("data", VInt 5)] eq_refl) eq_refl).
Defined.

(** C2 as stated fails: the object [{"data": 5}] answered to method [Foo]
    lacks ["FooResult"] and has a top-level ["data"], and [_request] returns
    the object, not [5]. *)
Lemma top_level_data_not_unwrapped :
  dict_get ("Foo" ++ "Result") [("data", VInt 5)] = None
  /\ dict_get "data" [("data", VInt 5)] = Some (VInt 5)
  /\ fst (_request (mock (VDict [("data", VInt 5)])) a_client "Foo" (VDict []) [])
     = Ok (VDict [("data", VInt 5)])
  /\ fst (_request (mock (VDict [("data", VInt 5)])) a_client "Foo" (VDict []) [])
     <> Ok (VInt 5).
Proof.
  split; [|split; [|split]]; try reflexivity.
  vm_compute. discriminate.
Qed.

(** ** Floats: truncation of a correctly rounded quotient *)

Lemma scale_nonpos x k : k <= 0 -> scale x k = x.
Proof. intros H. unfold scale. rewrite Z.max_l by lia. simpl. lia. Qed.

Lemma scale_nonneg x k : 0 <= k -> scale x k = x * 2 ^ k.
Proof. intros H. unfold scale. now rewrite Z.max_r by lia. Qed.

(** A quotient below [2 ^ (53 - j)] gets an exponent of at most [- j], at
    which the float is [rounded]. *)
Lemma true_divide_small n d j :
  0 < d -> n <> 0 -> 0 <= j <= 53 -> Z.abs n < d * 2 ^ (53 - j) ->
  exists k, j <= k /\
    true_divide n d = F64 (Z.sgn n * rounded (Z.abs n) d k) (- k).
Proof.
  intros Hd Hn Hj Hlt.
  unfold true_divide. rewrite (proj2 (Z.eqb_neq n 0) Hn).
  set (a := Z.abs n) in *.
  assert (Ha : 0 < a) by (unfold a; lia).
  set (l := Z.log2 a - Z.log2 d).
  destruct (Z.log2_spec a Ha) as [Hla _].
  destruct (Z.log2_spec d Hd) as [_ Hld].
  assert (Hl : l <= 53 - j).
  { assert (H : 2 ^ Z.log2 a < 2 ^ (Z.log2 d + 1 + (53 - j))).
    { rewrite Z.pow_add_r by (pose proof (Z.log2_nonneg d); lia).
      assert (0 < 2 ^ (53 - j)) by (apply Z.pow_pos_nonneg; lia).
      nia. }
    apply Z.pow_lt_mono_r_iff in H; [unfold l; lia | lia |].
    pose proof (Z.log2_nonneg d); lia. }
  set (l' := if scale d l <=? scale a (- l) then l else l - 1).
  assert (Hl' : l' <= 52 - j).
  { unfold l'. destruct (Z.leb_spec (scale d l) (scale a (- l))) as [Hle|]; [|lia].
    destruct (Z.eq_dec l (53 - j)) as [E|]; [|lia].
    rewrite scale_nonneg, scale_nonpos in Hle by lia.
    rewrite E in Hle. lia. }
  exists (- (l' - 52)). split; [lia|].
  rewrite Z.opp_involutive.
  rewrite (scale_nonneg a) by lia.
  rewrite (scale_nonpos d) by lia.
  reflexivity.
Qed.

Lemma int_of_float_neg_expo m k :
  0 <= k -> int_of_float (F64 m (- k)) = Z.quot m (2 ^ k).
Proof.
  intros Hk. unfold int_of_float. simpl.
  destruct (Z.leb_spec 0 (- k)).
  - assert (k = 0) by lia. subst. simpl. now rewrite Z.quot_1_r, Z.mul_1_r.
  - now rewrite Z.opp_involutive.
Qed.

Lemma quot_sgn_mul n m p :
  n <> 0 -> 0 <= m -> 0 < p -> Z.quot (Z.sgn n * m) p = Z.sgn n * (m / p).
Proof.
  intros Hn Hm Hp.
  destruct (Z.lt_total n 0) as [H|[H|H]]; [| lia |].
  - rewrite (Z.sgn_neg n H).
    replace (-1 * m) with (- m) by lia.
    rewrite Z.quot_opp_l by lia. rewrite Z.quot_div_nonneg by lia. lia.
  - rewrite (Z.sgn_pos n H). rewrite !Z.mul_1_l. apply Z.quot_div_nonneg; lia.
Qed.

(** Whole quotients below [2 ^ 53] are exact. *)
Lemma int_true_divide_exact s d :
  0 < d -> Z.abs s < 2 ^ 53 -> int_of_float (true_divide (s * d) d) = s.
Proof.
  intros Hd Hs.
  destruct (Z.eq_dec s 0) as [->|Hs0]; [reflexivity|].
  destruct (true_divide_small (s * d) d 0) as (k & Hk & ->); try lia.
  { rewrite Z.abs_mul. simpl (53 - 0). rewrite (Z.abs_eq d) by lia. nia. }
  rewrite int_of_float_neg_expo by lia.
  assert (Hp : 0 < 2 ^ k) by (apply Z.pow_pos_nonneg; lia).
  unfold rounded.
  replace (Z.abs (s * d) * 2 ^ k) with (Z.abs s * 2 ^ k * d)
    by (rewrite Z.abs_mul, (Z.abs_eq d); lia).
  rewrite Z.div_mul, Z.mod_mul by lia.
  replace (d <? 2 * 0) with false by (symmetry; apply Z.ltb_ge; lia).
  replace (d =? 2 * 0) with false by (symmetry; apply Z.eqb_neq; lia).
  simpl orb. cbv iota.
  rewrite quot_sgn_mul by nia.
  rewrite Z.div_mul by lia.
  rewrite Z.sgn_mul, (Z.sgn_pos d), Z.mul_1_r by lia.
  pose proof (Z.abs_sgn s). lia.
Qed.

(** Below [2 ^ 34] a quotient by at most [2 ^ 20] never rounds up to the
    next integer: [int] of the float is the truncated quotient. *)
Lemma int_true_divide_trunc n d :
  0 < d < 2 ^ 20 -> Z.abs n < d * 2 ^ 34 ->
  int_of_float (true_divide n d) = Z.quot n d.
Proof.
  intros Hd Hn.
  destruct (Z.eq_dec n 0) as [->|Hn0]; [reflexivity|].
  destruct (true_divide_small n d 19) as (k & Hk & ->); try lia.
  rewrite int_of_float_neg_expo by lia.
  assert (Hp : 0 < 2 ^ k) by (apply Z.pow_pos_nonneg; lia).
  assert (Hk20 : 2 ^ 20 <= 2 * 2 ^ k).
  { replace (2 * 2 ^ k) with (2 ^ (k + 1)) by (rewrite Z.pow_add_r; lia).
    apply Z.pow_le_mono_r; lia. }
  set (a := Z.abs n) in *.
  assert (Ha : 0 < a) by (unfold a; lia).
  assert (Hr : rounded a d k / 2 ^ k = a / d).
  { unfold rounded.
    pose proof (Z.div_mod (a * 2 ^ k) d ltac:(lia)) as Hdm.
    pose proof (Z.mod_pos_bound (a * 2 ^ k) d ltac:(lia)) as Hmb.
    pose proof (Z.div_mod a d ltac:(lia)) as Hdm'.
    pose proof (Z.mod_pos_bound a d ltac:(lia)) as Hmb'.
    set (q := a * 2 ^ k / d) in *. set (r := (a * 2 ^ k) mod d) in *.
    set (N := a / d) in *. set (f := a mod d) in *.
    assert (HN : 0 <= N) by (apply Z.div_pos; lia).
    assert (Hlo : N * 2 ^ k <= q).
    { apply Z.div_le_lower_bound; [lia|]. nia. }
    assert (Hhi : q * d + r + 2 ^ k <= (N + 1) * 2 ^ k * d) by nia.
    symmetry. apply Z.div_unique with
      (r := (if (d <? 2 * r) || ((d =? 2 * r) && Z.odd q) then q + 1 else q) - N * 2 ^ k).
    - left.
      destruct ((d <? 2 * r) || ((d =? 2 * r) && Z.odd q)) eqn:Hup.
      + split; [lia|].
        assert (2 * r >= d).
        { apply orb_true_iff in Hup. destruct Hup as [H|H].
          - apply Z.ltb_lt in H. lia.
          - apply andb_true_iff in H. destruct H as [H _]. apply Z.eqb_eq in H. lia. }
        assert (q + 1 < (N + 1) * 2 ^ k); [|lia].
        nia.
      + split; [lia|]. nia.
    - lia. }
  rewrite quot_sgn_mul; try lia.
  - rewrite Hr. rewrite (Z.quot_div n d) by lia.
    rewrite (Z.sgn_pos d), (Z.abs_eq d) by lia. fold a. lia.
  - unfold rounded. 
    assert (0 <= a * 2 ^ k / d) by (apply Z.div_pos; nia).
    destruct (_ || _); lia.
Qed.

(** ** The timestamp converters *)

Lemma EPOCH_wall : EPOCH = DateTime 0 None.
Proof. reflexivity. Qed.

Lemma to_unix_timestamp_naive w :
  to_unix_timestamp (VDateTime (DateTime w None))
  = Ok (VInt (int_of_float (true_divide w 1000000))).
Proof.
  unfold to_unix_timestamp. simpl truthy. cbv iota.
  rewrite EPOCH_wall. unfold datetime_sub, total_seconds. simpl.
  now rewrite Z.sub_0_r.
Qed.

Lemma to_unix_timestamp_not_datetime val :
  truthy val = true -> is_datetime val = false ->
  to_unix_timestamp val = Raise (ValueError "input must be of type datetime").
Proof.
  intros Ht Hd. unfold to_unix_timestamp. rewrite Ht.
  destruct val; try reflexivity. discriminate Hd.
Qed.

(** C3, as the code has it: an input that is false in a boolean context
    ([None], [0], [""], an empty container, [False], [0.0]) bypasses the
    conversion and gives [None]; every other input that is not a datetime
    raises [ValueError], and an operation converting it ([get_flight_id],
    [airline_flight_schedules]) then hands no request to the transport; a
    naive datetime less than [2 ^ 34] seconds away from the epoch gives the
    whole seconds since the epoch, truncated toward zero. *)
Theorem to_unix_timestamp_cases :
  (forall val, truthy val = false -> to_unix_timestamp val = Ok VNone)
  /\ (forall val,
        truthy val = true -> is_datetime val = false ->
        to_unix_timestamp val = Raise (ValueError "input must be of type datetime")
        /\ (forall post self ident log,
               get_flight_id post self ident val log
               = (Raise (ValueError "input must be of type datetime"), log))
        /\ (forall post localtime ff self e o d a f h off log,
               airline_flight_schedules post localtime ff self val e o d a f h off log
               = (Raise (ValueError "input must be of type datetime"), log))
        /\ (forall post localtime ff self sd s1 o d a f h off log,
               to_unix_timestamp sd = Ok s1 ->
               airline_flight_schedules post localtime ff self sd val o d a f h off log
               = (Raise (ValueError "input must be of type datetime"), log)))
  /\ (forall d,
        tzinfo d = None -> Z.abs (wall d) < 2 ^ 34 * 1000000 ->
        to_unix_timestamp (VDateTime d) = Ok (VInt (Z.quot (wall d) 1000000))).
Proof.
  split; [|split].
  - intros val H. unfold to_unix_timestamp. now rewrite H.
  - intros val Ht Hd.
    pose proof (to_unix_timestamp_not_datetime val Ht Hd) as E.
    split; [exact E|split; [|split]].
    + intros. unfold get_flight_id, bind, lift. now rewrite E.
    + intros. unfold airline_flight_schedules, bind, lift. now rewrite E.
    + intros post localtime ff self sd s1 o d a f h off log E1.
      unfold airline_flight_schedules, bind, lift. now rewrite E1, E.
  - intros [w tz] Htz Hw. simpl in *. subst tz.
    rewrite to_unix_timestamp_naive.
    rewrite int_true_divide_trunc; [reflexivity | lia | lia].
Qed.

Lemma to_unix_timestamp_cases_witness :
  to_unix_timestamp (VList []) = Ok VNone
  /\ to_unix_timestamp (VInt 1400000000)
     = Raise (ValueError "input must be of type datetime")
  /\ to_unix_timestamp (VDateTime (naive 1969 12 31 23 59 59 500000)) = Ok (VInt 0).
Proof.
  split; [|split].
  - exact (proj1 to_unix_timestamp_cases (VList []) eq_refl).
  - exact (proj1 (proj1 (proj2 to_unix_timestamp_cases) (VInt 1400000000)
                    eq_refl eq_refl)).
  - exact (proj2 (proj2 to_unix_timestamp_cases)
             (naive 1969 12 31 23 59 59 500000) eq_refl eq_refl).
Defined.

(** C3 as stated fails: the raw epoch value [0] and the string [""] are
    neither absent nor datetimes, and give [None] without an error; an aware
    datetime raises [TypeError] instead of being converted; and
    2600-01-01T00:00:00.999999 gives 19880899201, the float having rounded
    up to the next second, where truncation gives 19880899200. *)
Lemma to_unix_timestamp_zero_bypasses :
  to_unix_timestamp (VInt 0) = Ok VNone
  /\ to_unix_timestamp (VStr "") = Ok VNone
  /\ to_unix_timestamp (VDateTime (aware 2020 1 1 0 0 0 0 0)) = Raise TypeError
  /\ to_unix_timestamp (VDateTime (naive 2600 1 1 0 0 0 999999)) = Ok (VInt 19880899201)
  /\ Z.quot (wall (naive 2600 1 1 0 0 0 999999)) 1000000 = 19880899200.
Proof. repeat split. Qed.

(** C4, as the code has it: for a naive datetime [d] with whole-second
    precision in the range of [datetime], [to_unix_timestamp] gives the
    seconds [s] between the epoch and [d]; when the platform renders the
    instant [s], [from_unix_timestamp] of it is the naive reading of the
    local wall clock at that instant, which is [d] itself where the local
    clock reads as the epoch's does; and [to_unix_timestamp(None)] is
    [None]. *)
Theorem timestamp_round_trip :
  forall localtime ff d s,
    tzinfo d = None -> datetime_in_range d -> wall d = s * 1000000 ->
    to_unix_timestamp (VDateTime d) = Ok (VInt s)
    /\ (forall w,
           localtime s = Ok w ->
           (v <-? to_unix_timestamp (VDateTime d) ;; from_unix_timestamp localtime ff v)
           = Ok (VDateTime (DateTime (w * 1000000) None)))
    /\ (localtime s = Ok s ->
        (v <-? to_unix_timestamp (VDateTime d) ;; from_unix_timestamp localtime ff v)
        = Ok (VDateTime d))
    /\ to_unix_timestamp VNone = Ok VNone.
Proof.
  intros localtime ff [w tz] s Htz Hr Hw. simpl in Htz, Hw. subst tz w.
  unfold datetime_in_range, MIN_SECONDS, MAX_SECONDS in Hr. simpl in Hr.
  assert (E : to_unix_timestamp (VDateTime (DateTime (s * 1000000) None)) = Ok (VInt s)).
  { rewrite to_unix_timestamp_naive, int_true_divide_exact; [reflexivity|lia|lia]. }
  rewrite E. simpl. unfold fromtimestamp.
  split; [reflexivity|split; [|split; [|reflexivity]]].
  - intros w ->. reflexivity.
  - intros ->. reflexivity.
Qed.

Lemma timestamp_round_trip_witness :
  (v <-? to_unix_timestamp (VDateTime (naive 2015 6 1 12 0 0 0)) ;;
   from_unix_timestamp (fixed_zone 7200) no_float_timestamps v)
  = Ok (VDateTime (naive 2015 6 1 14 0 0 0)).
Proof.
  refine (proj1 (proj2 (timestamp_round_trip (fixed_zone 7200) no_float_timestamps
                          (naive 2015 6 1 12 0 0 0) 1433160000 eq_refl _ eq_refl))
            1433167200 eq_refl).
  split; vm_compute; discriminate.
Defined.

(** C4 as stated fails: an aware datetime with whole-second precision
    raises [TypeError] in [to_unix_timestamp], and for [datetime.min] in a
    zone five hours west of UTC [from_unix_timestamp] raises on the seconds
    that [to_unix_timestamp] gave. *)
Lemma round_trip_raises :
  (v <-? to_unix_timestamp (VDateTime (aware 2020 1 1 0 0 0 0 0)) ;;
   from_unix_timestamp (fixed_zone 0) no_float_timestamps v)
  = Raise TypeError
  /\ (v <-? to_unix_timestamp (VDateTime (naive 1 1 1 0 0 0 0)) ;;
      from_unix_timestamp (fixed_zone (-18000)) no_float_timestamps v)
     = Raise (ValueError "year 0 is out of range").
Proof. split; reflexivity. Qed.

(** ** Operations that are declared and not implemented *)

(** C5: each of the sixteen unimplemented operations raises
    [NotImplementedError] from any state, with the list of requests handed
    to the transport unchanged; the exception differs from the two a
    transport exchange can raise. *)
Theorem unimplemented_raise :
  forall post localtime ff so self c log,
    unimplemented c = true ->
    perform post localtime ff so self c log = (Raise NotImplementedError, log)
    /\ NotImplementedError <> RequestException
    /\ NotImplementedError <> JSONDecodeError.
Proof.
  intros post localtime ff so self c log H.
  split; [|split; discriminate].
  destruct c; try discriminate H; reflexivity.
Qed.

Lemma unimplemented_raise_witness :
  perform (mock VNone) (fixed_zone 0) no_float_timestamps no_str_object
    a_client Get_historical_track []
  = (Raise NotImplementedError, []).
Proof.
  exact (proj1 (unimplemented_raise (mock VNone) (fixed_zone 0) no_float_timestamps
                  no_str_object a_client Get_historical_track [] eq_refl)).
Defined.

(** ** The query of [search] *)

Lemma concat_empty_cons (x : string) (xs : list string) :
  String.concat "" (x :: xs) = x ++ String.concat "" xs.
Proof.
  destruct xs as [|y ys]; simpl; [|reflexivity].
  induction x as [|c x IH]; simpl; [reflexivity|]. now rewrite <- IH.
Qed.

Lemma append_assoc (a b c : string) : (a ++ b) ++ c = a ++ b ++ c.
Proof. induction a as [|x a IH]; simpl; [reflexivity|]. now rewrite IH. Qed.

Lemma append_empty_r (a : string) : a ++ "" = a.
Proof. induction a as [|x a IH]; simpl; [reflexivity|]. now rewrite IH. Qed.

Lemma fold_left_append (entry : string * value -> string) items acc :
  fold_left (fun query kv => query ++ entry kv) items acc
  = acc ++ String.concat "" (map entry items).
Proof.
  revert acc. induction items as [|kv items IH]; intros acc.
  - simpl. now rewrite append_empty_r.
  - cbn [fold_left map]. rewrite IH, concat_empty_cons. apply append_assoc.
Qed.

(** C7: the query sent by [search] is the concatenation, entry by entry in
    the mapping's order, of a dash, the key, a space, [str] of the value and
    a space; it is the ["query"] entry of the one mapping posted to
    [Search], next to ["howMany"] and ["offset"]; and the mapping
    [{"type": "B77*", "belowAltitude": 100}] gives
    ["-type B77* -belowAltitude 100 "]. *)
Theorem search_query :
  forall post so self items how_many offset log,
    build_query so items
    = String.concat ""
        (map (fun kv => "-" ++ fst kv ++ " " ++ py_str so (snd kv) ++ " ") items)
    /\ snd (search post so self (VDict items) how_many offset log)
       = (log ++ [{| req_url := "http://flightxml.flightaware.com/json/FlightXML2/Search";
                     req_data := VDict [("query", VStr (build_query so items));
                                        ("howMany", how_many); ("offset", offset)];
                     req_auth := auth self;
                     req_headers := headers self |}])%list
    /\ build_query so [("type", VStr "B77*"); ("belowAltitude", VInt 100)]
       = "-type B77* -belowAltitude 100 ".
Proof.
  intros post so self items how_many offset log.
  split; [|split].
  - unfold build_query.
    now rewrite (fold_left_append
                   (fun kv => "-" ++ fst kv ++ " " ++ py_str so (snd kv) ++ " ")).
  - unfold search. now rewrite _request_log.
  - reflexivity.
Qed.

(** ** Alerts *)

(** C9: [delete_alert] with no identifier returns [None] and hands nothing
    to the transport; with an identifier it is the [DeleteAlert] request
    carrying it, and returns what [_request] returns. *)
Theorem delete_alert_cases :
  forall post self log,
    delete_alert post self VNone log = (Ok VNone, log)
    /\ (forall alert_id,
           alert_id <> VNone ->
           delete_alert post self alert_id log
           = _request post self "DeleteAlert" (VDict [("alert_id", alert_id)]) log
           /\ snd (delete_alert post self alert_id log)
              = (log ++ [{| req_url :=
                              "http://flightxml.flightaware.com/json/FlightXML2/DeleteAlert";
                            req_data := VDict [("alert_id", alert_id)];
                            req_auth := auth self;
                            req_headers := headers self |}])%list).
Proof.
  intros post self log. split; [reflexivity|].
  intros alert_id Hid.
  assert (E : delete_alert post self alert_id
              = _request post self "DeleteAlert" (VDict [("alert_id", alert_id)])).
  { unfold delete_alert. destruct alert_id; try reflexivity. now elim Hid. }
  rewrite E. split; [reflexivity|]. now rewrite _request_log.
Qed.

Lemma delete_alert_cases_witness :
  delete_alert (mock (VDict [("DeleteAlertResult", VInt 1)])) a_client (VInt 7) []
  = (Ok (VInt 1),
     [request_of a_client "DeleteAlert" (VDict [("alert_id", VInt 7)])]).
Proof.
  exact (proj1 (proj2 (delete_alert_cases
                         (mock (VDict [("DeleteAlertResult", VInt 1)])) a_client [])
                  (VInt 7) (fun H => match H with end))).
Defined.

(** ** What the operations hand to the transport *)

Lemma bind_lift_log {A B} (c : outcome A) (k : A -> M B) log :
  snd (bind (lift c) k log) = match c with Ok a => snd (k a log) | Raise _ => log end.
Proof. unfold bind, lift. now destruct c. Qed.

Lemma airline_flight_schedules_log post localtime ff self sd ed o d a f h off log s1 s2 :
  to_unix_timestamp sd = Ok s1 ->
  to_unix_timestamp ed = Ok s2 ->
  snd (airline_flight_schedules post localtime ff self sd ed o d a f h off log)
  = (log ++ [request_of self "AirlineFlightSchedules"
               (VDict [("startDate", s1); ("endDate", s2); ("origin", o);
                       ("destination", d); ("airline", a); ("flightno", f);
                       ("howMany", h); ("offset", off)])])%list.
Proof.
  intros E1 E2. unfold airline_flight_schedules.
  rewrite bind_lift_log, E1, bind_lift_log, E2.
  rewrite <- _request_log with (post := post).
  unfold bind at 1.
  destruct (_request post self "AirlineFlightSchedules" _ log) as [[results|e] log'];
    [|reflexivity].
  rewrite bind_lift_log. destruct (py_iter results); [|reflexivity].
  rewrite bind_lift_log. now destruct (for_each _ _).
Qed.

Lemma set_alert_log post self i id o d t ds de ch en mw log n :
  py_len ch = Ok n ->
  snd (set_alert post self i id o d t ds de ch en mw log)
  = (log ++ [request_of self "SetAlert"
               (VDict (set_unless_none "enabled" en
                  (if 0 <? n then
                     dict_set "channels" ch
                       (set_unless_none "date_end" de
                       (set_unless_none "date_start" ds
                       (set_unless_none "aircrafttype" t
                       (set_unless_none "destination" d
                       (set_unless_none "origin" o
                       (set_unless_none "ident" id
                          [("alert_id", i); ("enabled", en); ("max_weekly", mw)]))))))
                   else
                       (set_unless_none "date_end" de
                       (set_unless_none "date_start" ds
                       (set_unless_none "aircrafttype" t
                       (set_unless_none "destination" d
                       (set_unless_none "origin" o
                       (set_unless_none "ident" id
                          [("alert_id", i); ("enabled", en); ("max_weekly", mw)])))))))))])%list.
Proof.
  intros E. unfold set_alert. rewrite bind_lift_log, E. now rewrite _request_log.
Qed.

(** The remote methods this client posts to. *)
Lemma perform_log post localtime ff so self c log :
  snd (perform post localtime ff so self c log) = log
  \/ exists method data,
       snd (perform post localtime ff so self c log)
       = (log ++ [request_of self method data])%list
       /\ In method
            ["AircraftType"; "AirlineFlightInfo"; "AirlineFlightSchedules";
             "AirlineInfo"; "AirlineInsight"; "AirportInfo"; "AllAirlines";
             "AllAirports"; "BlockIdentCheck"; "CountAirportOperations";
             "CountAllEnrouteAirlineOperations"; "DecodeFlightRoute"; "Arrived";
             "Departed"; "Enroute"; "GetFlightID"; "GetLastTrack"; "InFlightInfo";
             "Metar"; "MetarEx"; "NTaf"; "RoutesBetweenAirports"; "Scheduled";
             "Search"; "TailOwner"; "ZipcodeInfo"; "GetAlerts"; "DeleteAlert";
             "SetAlert"; "RegisterAlertEndpoint"].
Proof.
  destruct c; cbn [perform];
    try (left; reflexivity);
    try (right; eexists _, _; split; [apply _request_log | simpl; tauto]).
  - (* airline_flight_schedules *)
    destruct (to_unix_timestamp start_date) as [s1|e1] eqn:E1;
      [|left; unfold airline_flight_schedules; now rewrite bind_lift_log, E1].
    destruct (to_unix_timestamp end_date) as [s2|e2] eqn:E2;
      [|left; unfold airline_flight_schedules;
        now rewrite bind_lift_log, E1, bind_lift_log, E2].
    right. eexists _, _. split;
      [apply (airline_flight_schedules_log _ _ _ _ _ _ _ _ _ _ _ _ _ _ _ E1 E2)
      |simpl; tauto].
  - (* get_flight_id *)
    unfold get_flight_id. rewrite bind_lift_log.
    destruct (to_unix_timestamp departure_datetime); [|now left].
    right. eexists _, _. split; [apply _request_log | simpl; tauto].
  - (* search *)
    unfold search. destruct parameters; try (left; reflexivity).
    right. eexists _, _. split; [apply _request_log | simpl; tauto].
  - (* delete_alert *)
    unfold delete_alert. destruct alert_id; cbn [is_none negb];
      try (left; reflexivity);
      right; eexists _, _; (split; [apply _request_log | simpl; tauto]).
  - (* set_alert *)
    destruct (py_len channels) as [n|e] eqn:E;
      [|left; unfold set_alert; now rewrite bind_lift_log, E].
    right. eexists _, _. split; [apply (set_alert_log _ _ _ _ _ _ _ _ _ _ _ _ _ _ E)|].
    simpl; tauto.
Qed.

(** C10: [taf] is the same computation as [ntaf]: each posts the mapping
    [{"airport": airport}] to the URL of the remote method [NTaf]; and no
    operation of the client posts to the URL of [Taf]. *)
Theorem taf_posts_to_ntaf :
  forall post localtime ff so self,
    (forall airport log,
        taf post self airport log = ntaf post self airport log
        /\ snd (taf post self airport log)
           = (log ++ [{| req_url := "http://flightxml.flightaware.com/json/FlightXML2/NTaf";
                         req_data := VDict [("airport", airport)];
                         req_auth := auth self;
                         req_headers := headers self |}])%list)
    /\ (forall c log,
           exists sent,
             snd (perform post localtime ff so self c log) = (log ++ sent)%list
             /\ Forall (fun req =>
                          req_url req
                          <> "http://flightxml.flightaware.com/json/FlightXML2/Taf")
                       sent).
Proof.
  intros post localtime ff so self. split.
  - intros airport log. split; [reflexivity|].
    unfold taf. now rewrite _request_log.
  - intros c log.
    destruct (perform_log post localtime ff so self c log) as [E|(m & data & E & Hin)].
    + exists []. rewrite E, app_nil_r. split; [reflexivity|constructor].
    + exists [request_of self m data]. split; [exact E|].
      constructor; [|constructor].
      simpl in Hin.
      repeat (destruct Hin as [<-|Hin]; [vm_compute; discriminate|]).
      contradiction.
Qed.

(** ** Dictionaries *)

Lemma dict_get_set_same {V} (k : string) (v : V) d :
  dict_get k (dict_set k v d) = Some v.
Proof.
  induction d as [|[k' v'] d IH]; simpl.
  - now rewrite String.eqb_refl.
  - destruct (String.eqb k k') eqn:E; simpl; rewrite E; [reflexivity|exact IH].
Qed.

Lemma dict_get_set_other {V} (k k' : string) (v : V) d :
  k <> k' -> dict_get k (dict_set k' v d) = dict_get k d.
Proof.
  intros Hne. apply String.eqb_neq in Hne.
  induction d as [|[k0 v0] d IH]; simpl.
  - now rewrite Hne.
  - destruct (String.eqb k' k0) eqn:E; simpl.
    + apply String.eqb_eq in E. subst k0. now rewrite Hne.
    + now rewrite IH.
Qed.

(** ** Derived times of [airline_flight_schedules] *)

Lemma add_times_ok localtime ff item item' :
  add_times localtime ff item = Ok item' ->
  exists r dv av da db,
    item = VDict r
    /\ dict_get "departuretime" r = Some dv
    /\ dict_get "arrivaltime" r = Some av
    /\ from_unix_timestamp localtime ff dv = Ok da
    /\ from_unix_timestamp localtime ff av = Ok db
    /\ item' = VDict (dict_set "arrival_time" db (dict_set "departure_time" da r)).
Proof.
  unfold add_times. destruct item as [| | | | | |r| |]; try discriminate.
  simpl. destruct (dict_get "departuretime" r) as [dv|] eqn:Ed; [|discriminate].
  simpl. destruct (from_unix_timestamp localtime ff dv) as [da|] eqn:Ea; [|discriminate].
  simpl. rewrite dict_get_set_other by discriminate.
  destruct (dict_get "arrivaltime" r) as [av|] eqn:Eb; [|discriminate].
  simpl. destruct (from_unix_timestamp localtime ff av) as [db|] eqn:Ec; [|discriminate].
  simpl. intros [= <-]. now exists r, dv, av, da, db.
Qed.

Lemma add_times_total localtime ff r ta tb wa wb :
  dict_get "departuretime" r = Some (VInt ta) ->
  dict_get "arrivaltime" r = Some (VInt tb) ->
  localtime ta = Ok wa -> localtime tb = Ok wb ->
  exists item', add_times localtime ff (VDict r) = Ok item'.
Proof.
  intros Ed Eb Ha Hb. unfold add_times. simpl. rewrite Ed. simpl.
  unfold fromtimestamp. rewrite Ha. simpl.
  rewrite dict_get_set_other by discriminate. rewrite Eb. simpl.
  unfold fromtimestamp. rewrite Hb. simpl. eauto.
Qed.

Lemma for_each_nth body items items' :
  for_each body items = Ok items' ->
  List.length items' = List.length items
  /\ forall i x, nth_error items i = Some x ->
                 exists y, nth_error items' i = Some y /\ body x = Ok y.
Proof.
  revert items'. induction items as [|x0 items IH]; intros items'; simpl.
  - intros [= <-]. split; [reflexivity|]. intros [|i] x; discriminate.
  - destruct (body x0) as [y0|] eqn:E0; [|discriminate]. simpl.
    destruct (for_each body items) as [rest|]; [|discriminate]. simpl.
    intros [= <-]. destruct (IH rest eq_refl) as [Hlen Hnth].
    split; [simpl; now rewrite Hlen|].
    intros [|i] x; simpl.
    + intros [= <-]. eauto.
    + apply Hnth.
Qed.

Lemma for_each_total body items :
  (forall x, In x items -> exists y, body x = Ok y) ->
  exists items', for_each body items = Ok items'.
Proof.
  induction items as [|x0 items IH]; intros H; simpl; [eauto|].
  destruct (H x0 (or_introl eq_refl)) as [y0 ->].
  destruct IH as [rest ->]; [intros x Hx; apply H; now right|].
  simpl. eauto.
Qed.

Lemma airline_flight_schedules_list
    post localtime ff self sd ed o d a f h off log s1 s2 items log' :
  to_unix_timestamp sd = Ok s1 ->
  to_unix_timestamp ed = Ok s2 ->
  _request post self "AirlineFlightSchedules"
    (VDict [("startDate", s1); ("endDate", s2); ("origin", o); ("destination", d);
            ("airline", a); ("flightno", f); ("howMany", h); ("offset", off)]) log
  = (Ok (VList items), log') ->
  airline_flight_schedules post localtime ff self sd ed o d a f h off log
  = (match for_each (add_times localtime ff) items with
     | Ok items' => Ok (VList items')
     | Raise e => Raise e
     end, log').
Proof.
  intros E1 E2 Hreq. unfold airline_flight_schedules.
  unfold bind at 1. unfold lift at 1. rewrite E1.
  unfold bind at 1. unfold lift at 1. rewrite E2.
  unfold bind at 1. rewrite Hreq.
  unfold bind, lift, ret. simpl.
  now destruct (for_each (add_times localtime ff) items).
Qed.

(** C6: when the unwrapped result of [AirlineFlightSchedules] is a list,
    whatever [airline_flight_schedules] returns is a list of the same
    length in which every record that had integer fields ["departuretime"]
    and ["arrivaltime"] also has ["departure_time"] and ["arrival_time"],
    equal to [from_unix_timestamp] of those integers, and still has the two
    integer fields; and it does return when every record has the two
    integer fields and the platform renders their instants. *)
Theorem schedules_gain_times :
  forall post localtime ff self sd ed o d a f h off log s1 s2 items log',
    to_unix_timestamp sd = Ok s1 ->
    to_unix_timestamp ed = Ok s2 ->
    _request post self "AirlineFlightSchedules"
      (VDict [("startDate", s1); ("endDate", s2); ("origin", o); ("destination", d);
              ("airline", a); ("flightno", f); ("howMany", h); ("offset", off)]) log
    = (Ok (VList items), log') ->
    (forall v log'',
        airline_flight_schedules post localtime ff self sd ed o d a f h off log
        = (Ok v, log'') ->
        exists items',
          v = VList items'
          /\ List.length items' = List.length items
          /\ forall i r ta tb,
               nth_error items i = Some (VDict r) ->
               dict_get "departuretime" r = Some (VInt ta) ->
               dict_get "arrivaltime" r = Some (VInt tb) ->
               exists r' da db,
                 nth_error items' i = Some (VDict r')
                 /\ from_unix_timestamp localtime ff (VInt ta) = Ok da
                 /\ from_unix_timestamp localtime ff (VInt tb) = Ok db
                 /\ dict_get "departure_time" r' = Some da
                 /\ dict_get "arrival_time" r' = Some db
                 /\ dict_get "departuretime" r' = Some (VInt ta)
                 /\ dict_get "arrivaltime" r' = Some (VInt tb))
    /\ ((forall item,
            In item items ->
            exists r ta tb wa wb,
              item = VDict r
              /\ dict_get "departuretime" r = Some (VInt ta)
              /\ dict_get "arrivaltime" r = Some (VInt tb)
              /\ localtime ta = Ok wa /\ localtime tb = Ok wb) ->
        exists v,
          airline_flight_schedules post localtime ff self sd ed o d a f h off log
          = (Ok v, log')).
Proof.
  intros post localtime ff self sd ed o d a f h off log s1 s2 items log' E1 E2 Hreq.
  rewrite (airline_flight_schedules_list _ _ _ _ _ _ _ _ _ _ _ _ _ _ _ _ _ E1 E2 Hreq).
  split.
  - intros v log'' Hret.
    destruct (for_each (add_times localtime ff) items) as [items'|] eqn:Eloop;
      [|discriminate].
    injection Hret as <- <-.
    destruct (for_each_nth _ _ _ Eloop) as [Hlen Hnth].
    exists items'. split; [reflexivity|split; [exact Hlen|]].
    intros i r ta tb Hi Hd Ha.
    destruct (Hnth i _ Hi) as (y & Hy & Hadd).
    destruct (add_times_ok _ _ _ _ Hadd) as (r0 & dv & av & da & db & Er & Hd' & Ha' & Fa & Fb & ->).
    injection Er as <-. rewrite Hd in Hd'. rewrite Ha in Ha'.
    injection Hd' as <-. injection Ha' as <-.
    exists (dict_set "arrival_time" db (dict_set "departure_time" da r)), da, db.
    repeat split; try assumption.
    + rewrite dict_get_set_other by discriminate. apply dict_get_set_same.
    + apply dict_get_set_same.
    + rewrite !dict_get_set_other by discriminate. exact Hd.
    + rewrite !dict_get_set_other by discriminate. exact Ha.
  - intros Hall.
    destruct (for_each_total (add_times localtime ff) items) as [items' ->]; [|eauto].
    intros x Hx. destruct (Hall x Hx) as (r & ta & tb & wa & wb & -> & Hd & Ha & La & Lb).
    eapply add_times_total; eassumption.
Qed.

Lemma schedules_gain_times_witness :
  airline_flight_schedules
    (mock (VDict [("AirlineFlightSchedulesResult",
                   VDict [("data", VList [VDict [("ident", VStr "QFA1");
                                                 ("departuretime", VInt 0);
                                                 ("arrivaltime", VInt 3600)]])])]))
    (fixed_zone 0) no_float_timestamps a_client
    (VDateTime (naive 2015 6 1 0 0 0 0)) (VDateTime (naive 2015 6 2 0 0 0 0))
    VNone VNone VNone VNone MAX_RECORD_LENGTH (VInt 0) []
  = (Ok (VList [VDict [("ident", VStr "QFA1");
                       ("departuretime", VInt 0);
                       ("arrivaltime", VInt 3600);
                       ("departure_time", VDateTime (naive 1970 1 1 0 0 0 0));
                       ("arrival_time", VDateTime (naive 1970 1 1 1 0 0 0))]]),
     [request_of a_client "AirlineFlightSchedules"
        (VDict [("startDate", VInt 1433116800); ("endDate", VInt 1433203200);
                ("origin", VNone); ("destination", VNone); ("airline", VNone);
                ("flightno", VNone); ("howMany", VInt 15); ("offset", VInt 0)])])
  /\ exists r' da db,
       from_unix_timestamp (fixed_zone 0) no_float_timestamps (VInt 0) = Ok da
       /\ from_unix_timestamp (fixed_zone 0) no_float_timestamps (VInt 3600) = Ok db
       /\ dict_get "departure_time" r' = Some da
       /\ dict_get "arrival_time" r' = Some db
       /\ dict_get "departuretime" r' = Some (VInt 0)
       /\ dict_get "arrivaltime" r' = Some (VInt 3600).
Proof.
  split; [reflexivity|].
  destruct (schedules_gain_times
              (mock (VDict [("AirlineFlightSchedulesResult",
                             VDict [("data", VList [VDict [("ident", VStr "QFA1");
                                                           ("departuretime", VInt 0);
                                                           ("arrivaltime", VInt 3600)]])])]))
              (fixed_zone 0) no_float_timestamps a_client
              (VDateTime (naive 2015 6 1 0 0 0 0)) (VDateTime (naive 2015 6 2 0 0 0 0))
              VNone VNone VNone VNone MAX_RECORD_LENGTH (VInt 0) []
              _ _ _ _ eq_refl eq_refl eq_refl) as [Hret _].
  destruct (Hret _ _ eq_refl) as (items' & _ & _ & Hrec).
  destruct (Hrec 0%nat _ 0 3600 eq_refl eq_refl eq_refl)
    as (r' & da & db & _ & Fa & Fb & G1 & G2 & G3 & G4).
  exists r', da, db. repeat split; assumption.
Defined.

(** ** Optional parameters in the outbound request *)


















(** * Further properties of the client *)

(** ** [_request]: failures and bodies that are not objects *)

Lemma _request_no_reply post self method data log :
  post (request_of self method data) = NoReply ->
  _request post self method data log
  = (Raise RequestException, (log ++ [request_of self method data])%list).
Proof.
  intros H. unfold _request, bind, requests_post.
  fold (request_of self method data). now rewrite H.
Qed.

Lemma _request_not_json post self method data log :
  post (request_of self method data) = Reply None ->
  _request post self method data log
  = (Raise JSONDecodeError, (log ++ [request_of self method data])%list).
Proof.
  intros H. unfold _request, bind, requests_post.
  fold (request_of self method data). now rewrite H.
Qed.

(** X1: a failed exchange is not retried and not caught: without a
    response [_request] raises [RequestException], with a body that is not
    JSON it raises [JSONDecodeError], and in both cases exactly one request
    has been handed to the transport. *)
Theorem _request_failures :
  forall post self method data log,
    (post (request_of self method data) = NoReply ->
     _request post self method data log
     = (Raise RequestException, (log ++ [request_of self method data])%list))
    /\ (post (request_of self method data) = Reply None ->
        _request post self method data log
        = (Raise JSONDecodeError, (log ++ [request_of self method data])%list)).
Proof.
  intros. split; [apply _request_no_reply | apply _request_not_json].
Qed.

Lemma _request_failures_witness :
  _request (fun _ => NoReply) a_client "Metar" VNone []
  = (Raise RequestException, [request_of a_client "Metar" VNone])
  /\ _request (fun _ => Reply None) a_client "Metar" VNone []
     = (Raise JSONDecodeError, [request_of a_client "Metar" VNone]).
Proof.
  split.
  - exact (proj1 (_request_failures (fun _ => NoReply) a_client "Metar" VNone [])
             eq_refl).
  - exact (proj2 (_request_failures (fun _ => Reply None) a_client "Metar" VNone [])
             eq_refl).
Defined.

Lemma _request_raises post self method data log e :
  fst (_request post self method data log) = Raise e ->
  e = RequestException \/ e = JSONDecodeError \/ e = TypeError.
Proof.
  unfold _request, bind, requests_post, lift, ret.
  destruct (post _) as [|[result|]]; simpl;
    [intros [= <-]; tauto | | intros [= <-]; tauto].
  destruct result; simpl; try (intros [= <-]; tauto).
  - (* a string body *)
    destruct (String.index 0 _ s); simpl; [intros [= <-]; tauto | discriminate].
  - (* a list body *)
    destruct (existsb _ l); simpl; [intros [= <-]; tauto | discriminate].
  - (* an object body *)
    rewrite dict_mem_get.
    destruct (dict_get (method ++ "Result") d) as [final|]; simpl; [|discriminate].
    destruct final; simpl; try discriminate.
    rewrite dict_mem_get. destruct (dict_get "data" d0); simpl; discriminate.
Qed.

(** X2: [_request] raises nothing but [RequestException],
    [JSONDecodeError] and [TypeError]; in particular the two subscripts
    [result[key]] and [final["data"]] never raise [KeyError], each being
    guarded by its membership test. *)
Theorem _request_exceptions :
  forall post self method data log e,
    fst (_request post self method data log) = Raise e ->
    (e = RequestException \/ e = JSONDecodeError \/ e = TypeError)
    /\ forall key, e <> KeyError key.
Proof.
  intros post self method data log e H.
  pose proof (_request_raises _ _ _ _ _ _ H) as He.
  split; [exact He|].
  intros key ->. destruct He as [He|[He|He]]; discriminate He.
Qed.

Lemma _request_exceptions_witness :
  (TypeError = RequestException \/ TypeError = JSONDecodeError \/ TypeError = TypeError)
  /\ forall key, TypeError <> KeyError key.
Proof.
  exact (_request_exceptions (mock (VInt 1)) a_client "Metar" VNone [] TypeError eq_refl).
Defined.

(** X3: a JSON body that is not an object.  [null], a boolean or a number
    makes the membership test raise [TypeError].  An array is returned
    whole unless one of its elements is the string ["<method>Result"], and
    a string is returned whole unless it contains ["<method>Result"]; in
    those two cases the subscript by a string raises [TypeError]. *)
Theorem _request_non_object_body :
  forall post self method data log body,
    post (request_of self method data) = Reply (Some body) ->
    match body with
    | VDict _ => True
    | VList l =>
        fst (_request post self method data log)
        = if existsb (is_str (method ++ "Result")) l then Raise TypeError
          else Ok (VList l)
    | VStr s =>
        fst (_request post self method data log)
        = match String.index 0 (method ++ "Result") s with
          | Some _ => Raise TypeError
          | None => Ok (VStr s)
          end
    | _ => fst (_request post self method data log) = Raise TypeError
    end.
Proof.
  intros post self method data log body H.
  unfold _request, bind, requests_post, lift, ret.
  fold (request_of self method data). rewrite H. simpl.
  destruct body; simpl; try reflexivity.
  - now destruct (String.index 0 _ s).
  - now destruct (existsb _ l).
Qed.

Lemma _request_non_object_body_witness :
  fst (_request (mock (VList [VStr "KSFO"; VStr "KLAX"])) a_client "AllAirports" VNone [])
  = Ok (VList [VStr "KSFO"; VStr "KLAX"])
  /\ fst (_request (mock (VList [VStr "AllAirportsResult"])) a_client "AllAirports"
            VNone [])
     = Raise TypeError
  /\ fst (_request (mock VNone) a_client "AllAirports" VNone []) = Raise TypeError.
Proof.
  split; [|split].
  - exact (_request_non_object_body (mock (VList [VStr "KSFO"; VStr "KLAX"])) a_client
             "AllAirports" VNone [] _ eq_refl).
  - exact (_request_non_object_body (mock (VList [VStr "AllAirportsResult"])) a_client
             "AllAirports" VNone [] _ eq_refl).
  - exact (_request_non_object_body (mock VNone) a_client "AllAirports" VNone [] _
             eq_refl).
Defined.

(** ** The operations and the transport *)

Lemma perform_failure post localtime ff so e :
  (forall self method data log,
      _request post self method data log
      = (Raise e, (log ++ [request_of self method data])%list)) ->
  forall self c log,
    snd (perform post localtime ff so self c log) = log
    \/ exists req,
         perform post localtime ff so self c log = (Raise e, (log ++ [req])%list).
Proof.
  intros H self c log.
  destruct c; cbn [perform];
    try (left; reflexivity);
    try (right; eexists; apply H).
  - (* airline_flight_schedules *)
    destruct (to_unix_timestamp start_date) as [s1|e1] eqn:E1;
      [|left; unfold airline_flight_schedules; now rewrite bind_lift_log, E1].
    destruct (to_unix_timestamp end_date) as [s2|e2] eqn:E2;
      [|left; unfold airline_flight_schedules;
        now rewrite bind_lift_log, E1, bind_lift_log, E2].
    right. eexists. unfold airline_flight_schedules.
    unfold bind at 1. unfold lift at 1. rewrite E1.
    unfold bind at 1. unfold lift at 1. rewrite E2.
    unfold bind at 1. rewrite H. reflexivity.
  - (* get_flight_id *)
    destruct (to_unix_timestamp departure_datetime) as [s|e'] eqn:E;
      [|left; unfold get_flight_id; now rewrite bind_lift_log, E].
    right. eexists. unfold get_flight_id, bind, lift. rewrite E. apply H.
  - (* search *)
    unfold search. destruct parameters; try (left; reflexivity).
    right. eexists. apply H.
  - (* delete_alert *)
    unfold delete_alert. destruct alert_id; cbn [is_none negb];
      try (left; reflexivity); right; eexists; apply H.
  - (* set_alert *)
    destruct (py_len channels) as [n|e'] eqn:E;
      [|left; unfold set_alert; now rewrite bind_lift_log, E].
    right. eexists. unfold set_alert, bind, lift. rewrite E. apply H.
Qed.

(** X5: no operation catches or retries a failed exchange.  When the
    transport gives no response, every operation either has handed it
    nothing or raises [RequestException] after exactly one request; when
    the bodies are not JSON, likewise with [JSONDecodeError]. *)
Theorem transport_failure_propagates :
  forall post localtime ff so self c log,
    ((forall req, post req = NoReply) ->
     snd (perform post localtime ff so self c log) = log
     \/ exists req,
          perform post localtime ff so self c log
          = (Raise RequestException, (log ++ [req])%list))
    /\ ((forall req, post req = Reply None) ->
        snd (perform post localtime ff so self c log) = log
        \/ exists req,
             perform post localtime ff so self c log
             = (Raise JSONDecodeError, (log ++ [req])%list)).
Proof.
  intros post localtime ff so self c log. split; intros H.
  - apply perform_failure. intros. apply _request_no_reply, H.
  - apply perform_failure. intros. apply _request_not_json, H.
Qed.

Lemma transport_failure_propagates_witness :
  (snd (perform (fun _ => NoReply) (fixed_zone 0) no_float_timestamps no_str_object
          a_client (Metar (VStr "KSFO")) []) = []
   \/ exists req,
        perform (fun _ => NoReply) (fixed_zone 0) no_float_timestamps no_str_object
          a_client (Metar (VStr "KSFO")) []
        = (Raise RequestException, [req]))
  /\ (snd (perform (fun _ => Reply None) (fixed_zone 0) no_float_timestamps no_str_object
             a_client (Metar (VStr "KSFO")) []) = []
      \/ exists req,
           perform (fun _ => Reply None) (fixed_zone 0) no_float_timestamps no_str_object
             a_client (Metar (VStr "KSFO")) []
           = (Raise JSONDecodeError, [req])).
Proof.
  split.
  - exact (proj1 (transport_failure_propagates (fun _ => NoReply) (fixed_zone 0)
                    no_float_timestamps no_str_object a_client (Metar (VStr "KSFO")) [])
             (fun _ => eq_refl)).
  - exact (proj2 (transport_failure_propagates (fun _ => Reply None) (fixed_zone 0)
                    no_float_timestamps no_str_object a_client (Metar (VStr "KSFO")) [])
             (fun _ => eq_refl)).
Defined.

(** X6: every operation hands the transport at most one request, after
    the requests already made; the request goes to [BASE_URL] followed by
    a method name and carries the credentials and the one header set by
    the constructor. *)
Theorem one_request_with_credentials :
  forall post localtime ff so user api_key c log,
    snd (perform post localtime ff so (Client_init user api_key) c log) = log
    \/ exists method data,
         snd (perform post localtime ff so (Client_init user api_key) c log)
         = (log ++ [{| req_url := BASE_URL ++ method;
                       req_data := data;
                       req_auth := {| username := user; password := api_key |};
                       req_headers :=
                         [("Content-Type", "application/x-www-form-urlencoded")] |}])%list.
Proof.
  intros post localtime ff so user api_key c log.
  destruct (perform_log post localtime ff so (Client_init user api_key) c log)
    as [E|(m & data & E & Hin)]; [now left|].
  right. exists m, data. rewrite E. f_equal. f_equal.
  unfold request_of. simpl auth. simpl headers. f_equal.
  simpl in Hin.
  repeat (destruct Hin as [<-|Hin]; [reflexivity|]).
  contradiction.
Qed.

(** ** The timestamp converters, further *)

Lemma rounded_bounds a d k :
  0 <= a -> 0 < d -> 0 <= k ->
  a * 2 ^ k / d <= rounded a d k <= a * 2 ^ k / d + 1.
Proof.
  intros Ha Hd Hk. unfold rounded. destruct (_ || _); lia.
Qed.

(** Below [2 ^ 53], [int] of the rounded quotient is the truncated quotient
    or the next integer away from zero. *)
Lemma int_true_divide_near n d :
  0 < d -> Z.abs n < d * 2 ^ 53 ->
  int_of_float (true_divide n d) = Z.quot n d
  \/ int_of_float (true_divide n d) = Z.quot n d + Z.sgn n.
Proof.
  intros Hd Hn.
  destruct (Z.eq_dec n 0) as [->|Hn0]; [now left|].
  destruct (true_divide_small n d 0) as (k & Hk & ->); try lia.
  rewrite int_of_float_neg_expo by lia.
  assert (Hp : 0 < 2 ^ k) by (apply Z.pow_pos_nonneg; lia).
  set (a := Z.abs n) in *.
  assert (Ha : 0 < a) by (unfold a; lia).
  pose proof (rounded_bounds a d k ltac:(lia) Hd Hk) as Hb.
  assert (Hq0 : 0 <= a * 2 ^ k / d) by (apply Z.div_pos; nia).
  assert (Hq : a * 2 ^ k / d / 2 ^ k = a / d).
  { rewrite Z.div_div by lia. now rewrite Z.div_mul_cancel_r by lia. }
  assert (Hlo : a / d <= rounded a d k / 2 ^ k).
  { rewrite <- Hq. apply Z.div_le_mono; lia. }
  assert (Hhi : rounded a d k / 2 ^ k <= a / d + 1).
  { apply Z.div_le_upper_bound; [lia|].
    pose proof (Z.mul_succ_div_gt (a * 2 ^ k / d) (2 ^ k) Hp) as Hs.
    rewrite Hq in Hs. nia. }
  rewrite quot_sgn_mul by lia.
  rewrite (Z.quot_div n d) by lia.
  rewrite (Z.sgn_pos d), (Z.abs_eq d) by lia. fold a.
  assert (Hc : rounded a d k / 2 ^ k = a / d \/ rounded a d k / 2 ^ k = a / d + 1)
    by lia.
  destruct Hc as [-> | ->]; [left|right]; lia.
Qed.

(** X7: for every naive datetime in the range of [datetime],
    [to_unix_timestamp] gives the seconds since the epoch truncated toward
    zero, or that number moved one second away from zero: the float of
    [total_seconds] is never further off. *)
Theorem to_unix_timestamp_within_a_second :
  forall d,
    tzinfo d = None -> datetime_in_range d ->
    to_unix_timestamp (VDateTime d) = Ok (VInt (Z.quot (wall d) 1000000))
    \/ to_unix_timestamp (VDateTime d)
       = Ok (VInt (Z.quot (wall d) 1000000 + Z.sgn (wall d))).
Proof.
  intros [w tz] Htz Hr. simpl in *. subst tz.
  unfold datetime_in_range, MIN_SECONDS, MAX_SECONDS in Hr. simpl in Hr.
  rewrite to_unix_timestamp_naive.
  destruct (int_true_divide_near w 1000000) as [-> | ->]; try lia; tauto.
Qed.

Lemma to_unix_timestamp_within_a_second_witness :
  to_unix_timestamp (VDateTime (naive 2600 1 1 0 0 0 999999))
  = Ok (VInt (Z.quot (wall (naive 2600 1 1 0 0 0 999999)) 1000000))
  \/ to_unix_timestamp (VDateTime (naive 2600 1 1 0 0 0 999999))
     = Ok (VInt (Z.quot (wall (naive 2600 1 1 0 0 0 999999)) 1000000
                 + Z.sgn (wall (naive 2600 1 1 0 0 0 999999)))).
Proof.
  apply (to_unix_timestamp_within_a_second (naive 2600 1 1 0 0 0 999999) eq_refl).
  split; vm_compute; discriminate.
Defined.

(** X8: on naive datetimes less than [2 ^ 34] seconds away from the
    epoch, [to_unix_timestamp] preserves order: a later datetime never
    gets a smaller timestamp. *)
Theorem to_unix_timestamp_monotone :
  forall d1 d2 t1 t2,
    tzinfo d1 = None -> tzinfo d2 = None ->
    Z.abs (wall d1) < 2 ^ 34 * 1000000 ->
    Z.abs (wall d2) < 2 ^ 34 * 1000000 ->
    wall d1 <= wall d2 ->
    to_unix_timestamp (VDateTime d1) = Ok (VInt t1) ->
    to_unix_timestamp (VDateTime d2) = Ok (VInt t2) ->
    t1 <= t2.
Proof.
  intros [w1 tz1] [w2 tz2] t1 t2 H1 H2 B1 B2 Hle. simpl in *. subst tz1 tz2.
  rewrite !to_unix_timestamp_naive.
  rewrite !int_true_divide_trunc by lia.
  intros [= <-] [= <-]. apply Z.quot_le_mono; lia.
Qed.

Lemma to_unix_timestamp_monotone_witness : 1433116800 <= 1433203199.
Proof.
  refine (to_unix_timestamp_monotone (naive 2015 6 1 0 0 0 0)
            (naive 2015 6 1 23 59 59 999999) 1433116800 1433203199
            eq_refl eq_refl _ _ _ eq_refl eq_refl);
    vm_compute; congruence.
Defined.

(** X9: converting a wire timestamp to a datetime and back does not give
    the timestamp back but the reading of the local wall clock in seconds:
    the two converters differ by the local UTC offset, and agree exactly
    where the local clock reads as the epoch's does. *)
Theorem from_then_to_unix_timestamp :
  forall localtime ff t w,
    localtime t = Ok w -> Z.abs w < 2 ^ 53 ->
    (v <-? from_unix_timestamp localtime ff (VInt t) ;; to_unix_timestamp v)
    = Ok (VInt w).
Proof.
  intros localtime ff t w Hl Hw. simpl. unfold fromtimestamp. rewrite Hl. simpl.
  rewrite to_unix_timestamp_naive. now rewrite int_true_divide_exact by lia.
Qed.

Lemma from_then_to_unix_timestamp_witness :
  (v <-? from_unix_timestamp (fixed_zone 32400) no_float_timestamps (VInt 3600) ;;
   to_unix_timestamp v)
  = Ok (VInt 36000).
Proof.
  refine (from_then_to_unix_timestamp (fixed_zone 32400) no_float_timestamps
            3600 36000 eq_refl _).
  vm_compute. reflexivity.
Defined.

(** ** [airline_flight_schedules], further *)

Lemma for_each_raises body items item :
  In item items -> (forall y, body item <> Ok y) ->
  exists e, for_each body items = Raise e.
Proof.
  intros Hin Hbad. induction items as [|x items IH]; [contradiction|].
  simpl. destruct Hin as [->|Hin].
  - destruct (body item) as [y|e]; [now elim (Hbad y)|]. simpl. eauto.
  - destruct (body x) as [y|e]; simpl; [|eauto].
    destruct (IH Hin) as [e ->]. simpl. eauto.
Qed.

(** X10: no partial result.  When the unwrapped result is a list and one
    of its elements is not an object, or is an object without
    ["departuretime"] or without ["arrivaltime"], the call raises after its
    one request and returns nothing; a first record without
    ["departuretime"] raises [KeyError] for that key. *)
Theorem schedules_no_partial_result :
  forall post localtime ff self sd ed o d a f h off log s1 s2 items log',
    to_unix_timestamp sd = Ok s1 ->
    to_unix_timestamp ed = Ok s2 ->
    _request post self "AirlineFlightSchedules"
      (VDict [("startDate", s1); ("endDate", s2); ("origin", o); ("destination", d);
              ("airline", a); ("flightno", f); ("howMany", h); ("offset", off)]) log
    = (Ok (VList items), log') ->
    (forall item,
        In item items ->
        (forall r, item = VDict r ->
                   dict_get "departuretime" r = None \/ dict_get "arrivaltime" r = None) ->
        exists e,
          airline_flight_schedules post localtime ff self sd ed o d a f h off log
          = (Raise e, log'))
    /\ (forall r rest,
           items = VDict r :: rest ->
           dict_get "departuretime" r = None ->
           airline_flight_schedules post localtime ff self sd ed o d a f h off log
           = (Raise (KeyError "departuretime"), log')).
Proof.
  intros post localtime ff self sd ed o d a f h off log s1 s2 items log' E1 E2 Hreq.
  rewrite (airline_flight_schedules_list _ _ _ _ _ _ _ _ _ _ _ _ _ _ _ _ _ E1 E2 Hreq).
  split.
  - intros item Hin Hbad.
    destruct (for_each_raises (add_times localtime ff) items item Hin) as [e ->];
      [|eauto].
    intros y Hy.
    destruct (add_times_ok _ _ _ _ Hy) as (r & dv & av & da & db & -> & Hd & Ha & _).
    destruct (Hbad r eq_refl) as [H|H]; congruence.
  - intros r rest -> Hd. simpl. unfold add_times. simpl. now rewrite Hd.
Qed.

Lemma schedules_no_partial_result_witness :
  airline_flight_schedules
    (mock (VDict [("AirlineFlightSchedulesResult",
                   VDict [("data", VList [VDict [("ident", VStr "QFA1")]])])]))
    (fixed_zone 0) no_float_timestamps a_client VNone VNone VNone VNone VNone VNone
    MAX_RECORD_LENGTH (VInt 0) []
  = (Raise (KeyError "departuretime"),
     [request_of a_client "AirlineFlightSchedules"
        (VDict [("startDate", VNone); ("endDate", VNone); ("origin", VNone);
                ("destination", VNone); ("airline", VNone); ("flightno", VNone);
                ("howMany", VInt 15); ("offset", VInt 0)])]).
Proof.
  exact (proj2 (schedules_no_partial_result
                  (mock (VDict [("AirlineFlightSchedulesResult",
                                 VDict [("data", VList [VDict [("ident", VStr "QFA1")]])])]))
                  (fixed_zone 0) no_float_timestamps a_client VNone VNone VNone VNone
                  VNone VNone MAX_RECORD_LENGTH (VInt 0) [] _ _ _ _
                  eq_refl eq_refl eq_refl)
           _ _ eq_refl eq_refl).
Defined.

(** X11: when the unwrapped result is not a list.  An object with at
    least one key (an error object of the service, or an envelope that was
    not unwrapped) raises [TypeError], the loop subscripting its first key;
    so does a non-empty string; [null], a boolean or a number is not
    iterable and raises [TypeError] too; the empty object and the empty
    string come back unchanged. *)
Theorem schedules_result_not_a_list :
  forall post localtime ff self sd ed o d a f h off log s1 s2 results log',
    to_unix_timestamp sd = Ok s1 ->
    to_unix_timestamp ed = Ok s2 ->
    _request post self "AirlineFlightSchedules"
      (VDict [("startDate", s1); ("endDate", s2); ("origin", o); ("destination", d);
              ("airline", a); ("flightno", f); ("howMany", h); ("offset", off)]) log
    = (Ok results, log') ->
    match results with
    | VList _ => True
    | VDict [] | VStr "" =>
        airline_flight_schedules post localtime ff self sd ed o d a f h off log
        = (Ok results, log')
    | _ =>
        airline_flight_schedules post localtime ff self sd ed o d a f h off log
        = (Raise TypeError, log')
    end.
Proof.
  intros post localtime ff self sd ed o d a f h off log s1 s2 results log' E1 E2 Hreq.
  assert (E : airline_flight_schedules post localtime ff self sd ed o d a f h off log
              = (items <- lift (py_iter results) ;;
                 items' <- lift (for_each (add_times localtime ff) items) ;;
                 ret (match results with VList _ => VList items' | _ => results end))
                  log').
  { unfold airline_flight_schedules.
    unfold bind at 1. unfold lift at 1. rewrite E1.
    unfold bind at 1. unfold lift at 1. rewrite E2.
    unfold bind at 1. now rewrite Hreq. }
  rewrite E. clear E Hreq.
  destruct results as [| | | |s|l|r| |]; try reflexivity; try exact I.
  - destruct s; reflexivity.
  - destruct r as [|[k v] r]; reflexivity.
Qed.

Lemma schedules_result_not_a_list_witness :
  airline_flight_schedules (mock (VDict [("error", VStr "no data available")]))
    (fixed_zone 0) no_float_timestamps a_client VNone VNone VNone VNone VNone VNone
    MAX_RECORD_LENGTH (VInt 0) []
  = (Raise TypeError,
     [request_of a_client "AirlineFlightSchedules"
        (VDict [("startDate", VNone); ("endDate", VNone); ("origin", VNone);
                ("destination", VNone); ("airline", VNone); ("flightno", VNone);
                ("howMany", VInt 15); ("offset", VInt 0)])]).
Proof.
  exact (schedules_result_not_a_list
           (mock (VDict [("error", VStr "no data available")]))
           (fixed_zone 0) no_float_timestamps a_client VNone VNone VNone VNone VNone
           VNone MAX_RECORD_LENGTH (VInt 0) [] _ _ _ _ eq_refl eq_refl eq_refl).
Defined.

(** X12: the loop touches nothing but the two derived fields: in every
    returned record each other key has the value it had in the result of
    the service. *)
Theorem schedules_other_fields_kept :
  forall post localtime ff self sd ed o d a f h off log s1 s2 items log' v log'',
    to_unix_timestamp sd = Ok s1 ->
    to_unix_timestamp ed = Ok s2 ->
    _request post self "AirlineFlightSchedules"
      (VDict [("startDate", s1); ("endDate", s2); ("origin", o); ("destination", d);
              ("airline", a); ("flightno", f); ("howMany", h); ("offset", off)]) log
    = (Ok (VList items), log') ->
    airline_flight_schedules post localtime ff self sd ed o d a f h off log
    = (Ok v, log'') ->
    exists items',
      v = VList items'
      /\ forall i item,
           nth_error items i = Some item ->
           exists r r',
             item = VDict r
             /\ nth_error items' i = Some (VDict r')
             /\ forall k,
                  k <> "departure_time" -> k <> "arrival_time" ->
                  dict_get k r' = dict_get k r.
Proof.
  intros post localtime ff self sd ed o d a f h off log s1 s2 items log' v log''
         E1 E2 Hreq.
  rewrite (airline_flight_schedules_list _ _ _ _ _ _ _ _ _ _ _ _ _ _ _ _ _ E1 E2 Hreq).
  destruct (for_each (add_times localtime ff) items) as [items'|] eqn:Eloop;
    [|discriminate].
  intros [= <- <-]. exists items'. split; [reflexivity|].
  intros i item Hi.
  destruct (for_each_nth _ _ _ Eloop) as [_ Hnth].
  destruct (Hnth i item Hi) as (y & Hy & Hadd).
  destruct (add_times_ok _ _ _ _ Hadd) as (r & dv & av & da & db & -> & _ & _ & _ & _ & ->).
  exists r, (dict_set "arrival_time" db (dict_set "departure_time" da r)).
  split; [reflexivity|split; [exact Hy|]].
  intros k Hk1 Hk2. now rewrite !dict_get_set_other.
Qed.

Lemma schedules_other_fields_kept_witness :
  exists items',
    VList [VDict [("ident", VStr "QFA1"); ("departuretime", VInt 0);
                  ("arrivaltime", VInt 3600);
                  ("departure_time", VDateTime (naive 1970 1 1 0 0 0 0));
                  ("arrival_time", VDateTime (naive 1970 1 1 1 0 0 0))]]
    = VList items'
    /\ forall i item,
         nth_error [VDict [("ident", VStr "QFA1"); ("departuretime", VInt 0);
                           ("arrivaltime", VInt 3600)]] i = Some item ->
         exists r r',
           item = VDict r
           /\ nth_error items' i = Some (VDict r')
           /\ forall k,
                k <> "departure_time" -> k <> "arrival_time" ->
                dict_get k r' = dict_get k r.
Proof.
  exact (schedules_other_fields_kept
           (mock (VDict [("AirlineFlightSchedulesResult",
                          VDict [("data", VList [VDict [("ident", VStr "QFA1");
                                                        ("departuretime", VInt 0);
                                                        ("arrivaltime", VInt 3600)]])])]))
           (fixed_zone 0) no_float_timestamps a_client VNone VNone VNone VNone VNone
           VNone MAX_RECORD_LENGTH (VInt 0) [] _ _ _ _ _ _ eq_refl eq_refl eq_refl
           eq_refl).
Defined.

(** ** [search], further *)

Lemma build_query_concat so items :
  build_query so items
  = String.concat ""
      (map (fun kv => "-" ++ fst kv ++ " " ++ py_str so (snd kv) ++ " ") items).
Proof.
  unfold build_query.
  now rewrite (fold_left_append
                 (fun kv => "-" ++ fst kv ++ " " ++ py_str so (snd kv) ++ " ")).
Qed.

(** X13: the query is built entry by entry: the query of two mappings one
    after the other is the query of the first followed by the query of the
    second, and the empty mapping (the default) gives the empty query. *)
Theorem build_query_app :
  forall so items1 items2,
    build_query so (items1 ++ items2)
    = build_query so items1 ++ build_query so items2
    /\ build_query so [] = "".
Proof.
  intros so items1 items2. split; [|reflexivity].
  rewrite (build_query_concat so items2).
  unfold build_query. rewrite fold_left_app.
  now rewrite (fold_left_append
                 (fun kv => "-" ++ fst kv ++ " " ++ py_str so (snd kv) ++ " ")
                 items2).
Qed.

(** X14: [search] does not quote or escape: a string value that itself
    holds [" -key value"] posts the same request as two separate
    filters. *)
Theorem search_does_not_escape :
  forall post so self k1 v1 k2 v2 how_many offset log,
    search post so self (VDict [(k1, VStr (v1 ++ " -" ++ k2 ++ " " ++ v2))])
      how_many offset log
    = search post so self (VDict [(k1, VStr v1); (k2, VStr v2)]) how_many offset log.
Proof.
  intros post so self k1 v1 k2 v2 how_many offset log.
  assert (E : build_query so [(k1, VStr (v1 ++ " -" ++ k2 ++ " " ++ v2))]
              = build_query so [(k1, VStr v1); (k2, VStr v2)]).
  { unfold build_query. cbn [fold_left fst snd py_str].
    change (" -" ++ k2 ++ " " ++ v2) with (" " ++ "-" ++ k2 ++ " " ++ v2).
    now rewrite !append_assoc. }
  unfold search. now rewrite E.
Qed.

(** ** [set_alert] and [get_flight_id], further *)

Lemma set_unless_none_after_head (k : string) v (k1 k2 k3 : string) v1 v2 v3 rest :
  String.eqb k k1 = false -> String.eqb k k2 = false -> String.eqb k k3 = false ->
  set_unless_none k v ((k1, v1) :: (k2, v2) :: (k3, v3) :: rest)
  = (k1, v1) :: (k2, v2) :: (k3, v3) :: set_unless_none k v rest.
Proof.
  intros H1 H2 H3. unfold set_unless_none.
  destruct (is_none v); simpl; [reflexivity|]. now rewrite H1, H2, H3.
Qed.

(** X15: the mapping [set_alert] posts begins with ["alert_id"],
    ["enabled"] and ["max_weekly"], each with the value supplied, also
    when that value is [None]: the closing guard on [enabled] changes
    nothing. *)
Theorem set_alert_always_sends :
  forall post self i id o d t ds de ch en mw log n,
    py_len ch = Ok n ->
    exists rest,
      snd (set_alert post self i id o d t ds de ch en mw log)
      = (log ++ [request_of self "SetAlert"
                   (VDict (("alert_id", i) :: ("enabled", en) :: ("max_weekly", mw)
                           :: rest))])%list.
Proof.
  intros post self i id o d t ds de ch en mw log n Hlen.
  rewrite (set_alert_log _ _ _ _ _ _ _ _ _ _ _ _ _ _ Hlen).
  rewrite !set_unless_none_after_head by reflexivity.
  assert (Hen : forall rest,
             set_unless_none "enabled" en
               (("alert_id", i) :: ("enabled", en) :: ("max_weekly", mw) :: rest)
             = ("alert_id", i) :: ("enabled", en) :: ("max_weekly", mw) :: rest).
  { intros rest. unfold set_unless_none. now destruct (is_none en). }
  destruct (0 <? n).
  - cbn [dict_set String.eqb Ascii.eqb Bool.eqb]. rewrite Hen. eauto.
  - rewrite Hen. eauto.
Qed.

Lemma set_alert_always_sends_witness :
  exists rest,
    snd (set_alert (mock (VInt 1)) a_client (VInt 0) VNone VNone VNone VNone VNone VNone
           (VList []) VNone (VInt 1000) [])
    = [request_of a_client "SetAlert"
         (VDict (("alert_id", VInt 0) :: ("enabled", VNone) :: ("max_weekly", VInt 1000)
                 :: rest))].
Proof.
  exact (set_alert_always_sends (mock (VInt 1)) a_client (VInt 0) VNone VNone VNone
           VNone VNone VNone (VList []) VNone (VInt 1000) [] 0 eq_refl).
Defined.

(** X16: [set_alert] needs a [channels] that has a length: with [None], a
    boolean, a number or a datetime it raises [TypeError] and hands
    nothing to the transport, whatever the other arguments. *)
Theorem set_alert_channels_without_len :
  forall post self i id o d t ds de ch en mw log,
    match ch with VStr _ | VList _ | VDict _ => False | _ => True end ->
    set_alert post self i id o d t ds de ch en mw log = (Raise TypeError, log).
Proof.
  intros post self i id o d t ds de ch en mw log H.
  unfold set_alert, bind, lift. destruct ch; try contradiction; reflexivity.
Qed.

Lemma set_alert_channels_without_len_witness :
  set_alert (mock (VInt 1)) a_client (VInt 0) (VStr "QFA1") VNone VNone VNone VNone
    VNone VNone (VBool true) (VInt 1000) []
  = (Raise TypeError, []).
Proof.
  exact (set_alert_channels_without_len (mock (VInt 1)) a_client (VInt 0) (VStr "QFA1")
           VNone VNone VNone VNone VNone VNone (VBool true) (VInt 1000) [] I).
Defined.

(** X17: [get_flight_id] posts the converted departure time under
    ["departureTime"], and nothing when the conversion raises.  A
    departure time that is [None], [0] or otherwise false is not rejected:
    the mapping is posted with ["departureTime"] set to [None]. *)
Theorem get_flight_id_mapping :
  forall post self ident departure_datetime log,
    (forall s,
        to_unix_timestamp departure_datetime = Ok s ->
        snd (get_flight_id post self ident departure_datetime log)
        = (log ++ [request_of self "GetFlightID"
                     (VDict [("ident", ident); ("departureTime", s)])])%list)
    /\ (forall e,
           to_unix_timestamp departure_datetime = Raise e ->
           get_flight_id post self ident departure_datetime log = (Raise e, log))
    /\ (truthy departure_datetime = false ->
        snd (get_flight_id post self ident departure_datetime log)
        = (log ++ [request_of self "GetFlightID"
                     (VDict [("ident", ident); ("departureTime", VNone)])])%list).
Proof.
  intros post self ident dd log.
  assert (Hok : forall s,
             to_unix_timestamp dd = Ok s ->
             snd (get_flight_id post self ident dd log)
             = (log ++ [request_of self "GetFlightID"
                          (VDict [("ident", ident); ("departureTime", s)])])%list).
  { intros s E. unfold get_flight_id. rewrite bind_lift_log, E. apply _request_log. }
  split; [exact Hok|split].
  - intros e E. unfold get_flight_id, bind, lift. now rewrite E.
  - intros Hf. apply Hok. unfold to_unix_timestamp. now rewrite Hf.
Qed.

Lemma get_flight_id_mapping_witness :
  snd (get_flight_id (mock (VStr "QFA1-1433160000-schedule-0000")) a_client
         (VStr "QFA1") (VDateTime (naive 2015 6 1 12 0 0 0)) [])
  = [request_of a_client "GetFlightID"
       (VDict [("ident", VStr "QFA1"); ("departureTime", VInt 1433160000)])]
  /\ get_flight_id (mock VNone) a_client (VStr "QFA1") (VInt 1433160000) []
     = (Raise (ValueError "input must be of type datetime"), [])
  /\ snd (get_flight_id (mock VNone) a_client (VStr "QFA1") (VInt 0) [])
     = [request_of a_client "GetFlightID"
          (VDict [("ident", VStr "QFA1"); ("departureTime", VNone)])].
Proof.
  split; [|split].
  - exact (proj1 (get_flight_id_mapping (mock (VStr "QFA1-1433160000-schedule-0000"))
                    a_client (VStr "QFA1") (VDateTime (naive 2015 6 1 12 0 0 0)) [])
             _ eq_refl).
  - exact (proj1 (proj2 (get_flight_id_mapping (mock VNone) a_client (VStr "QFA1")
                           (VInt 1433160000) []))
             _ eq_refl).
  - exact (proj2 (proj2 (get_flight_id_mapping (mock VNone) a_client (VStr "QFA1")
                           (VInt 0) []))
             eq_refl).
Defined.

(** X18: what [to_unix_timestamp] can give.  A result is [None] or an
    int, never anything else; an exception is the [ValueError] of the type
    test or the [TypeError] of the subtraction; and every aware datetime
    raises that [TypeError], the epoch being naive. *)
Theorem to_unix_timestamp_results :
  forall val,
    (forall r, to_unix_timestamp val = Ok r -> r = VNone \/ exists t, r = VInt t)
    /\ (forall e,
           to_unix_timestamp val = Raise e ->
           e = ValueError "input must be of type datetime" \/ e = TypeError)
    /\ (forall d off,
           val = VDateTime d -> tzinfo d = Some off ->
           to_unix_timestamp val = Raise TypeError).
Proof.
  intros val. unfold to_unix_timestamp.
  split; [|split].
  - intros r. destruct (truthy val); [|intros [= <-]; now left].
    destruct val; try discriminate.
    rewrite EPOCH_wall. unfold datetime_sub. simpl.
    destruct (tzinfo d); simpl; [discriminate|]. intros [= <-]. eauto.
  - intros e. destruct (truthy val); [|discriminate].
    destruct val; try (intros [= <-]; now left).
    rewrite EPOCH_wall. unfold datetime_sub. simpl.
    destruct (tzinfo d); simpl; [intros [= <-]; now right|discriminate].
  - intros d off -> Htz. simpl. rewrite EPOCH_wall. unfold datetime_sub. simpl.
    now rewrite Htz.
Qed.

Lemma to_unix_timestamp_results_witness :
  (VInt 1433160000 = VNone \/ exists t, VInt 1433160000 = VInt t)
  /\ (TypeError = ValueError "input must be of type datetime" \/ TypeError = TypeError)
  /\ to_unix_timestamp (VDateTime (aware 2015 6 1 12 0 0 0 36000)) = Raise TypeError.
Proof.
  split; [|split].
  - exact (proj1 (to_unix_timestamp_results (VDateTime (naive 2015 6 1 12 0 0 0)))
             _ eq_refl).
  - exact (proj1 (proj2 (to_unix_timestamp_results
                           (VDateTime (aware 2015 6 1 12 0 0 0 36000))))
             _ eq_refl).
  - exact (proj2 (proj2 (to_unix_timestamp_results
                           (VDateTime (aware 2015 6 1 12 0 0 0 36000))))
             _ 36000 eq_refl eq_refl).
Defined.
